(** * mkfat32: synthesis of a FAT32 volume image

    A shallow embedding of [tools/mkfat32.py].  Python integers are [Z],
    [bytes]/[bytearray] values are [list byte], exceptions are an error
    monad, the open file is a state monad over its contents and position,
    and the file system is a finite map from paths to contents. *)

From Stdlib Require Import ZArith Lia.
From Stdlib.Strings Require Import Byte.
From stdpp Require Import base option list gmap strings.

Local Open Scope Z_scope.

(** ** Python values and exceptions *)

Inductive exn :=
  | StructError            (* struct.error *)
  | ValueError
  | OSError
  | IndexError
  | SystemExit (code : Z).

Inductive result (A : Type) :=
  | Ok (a : A)
  | Raise (e : exn).
Arguments Ok {A} a.
Arguments Raise {A} e.

#[global] Instance result_ret : MRet result := @Ok.
#[global] Instance result_bind : MBind result := fun A B f r =>
  match r with
  | Ok a => f a
  | Raise e => Raise e
  end.

Abbreviation bytes := (list byte).

Definition byte_of_Z (z : Z) : byte :=
  default x00 (Byte.of_N (Z.to_N (z mod 256))).

Definition Z_of_byte (b : byte) : Z := Z.of_N (Byte.to_N b).

(** [b * n] on a bytes object; a negative count gives the empty object. *)
Definition bytes_mul (b : bytes) (n : Z) : bytes :=
  mjoin (replicate (Z.to_nat n) b).

(** [bytearray(n)]: [n] zero bytes, [ValueError] on a negative count. *)
Definition bytearray (n : Z) : result bytes :=
  if n <? 0 then Raise ValueError else Ok (replicate (Z.to_nat n) x00).

(** ** The [struct] module, as far as the program uses it *)

Module Struct.

(** One item of a little-endian format string ([<], no padding): the
    format characters B, H, I and <n>s. *)
Inductive code :=
  | ubyte             (* B: unsigned char, 1 byte *)
  | ushort            (* H: unsigned short, 2 bytes *)
  | uint              (* I: unsigned int, 4 bytes *)
  | chars (n : nat).  (* <n>s: char[n] *)

Inductive value := Int (v : Z) | Bytes (b : bytes).

Definition width (c : code) : nat :=
  match c with ubyte => 1 | ushort => 2 | uint => 4 | chars n => n end.

(** Little-endian bytes of [v], least significant first. *)
Fixpoint le_bytes (w : nat) (v : Z) : bytes :=
  match w with
  | O => []
  | S w' => byte_of_Z (Z.land v 255) :: le_bytes w' (Z.shiftr v 8)
  end.

(** An unsigned field of [w] bytes refuses a value outside
    [0 .. 2^(8w) - 1]. *)
Definition pack_uint (w : nat) (v : Z) : result bytes :=
  if (0 <=? v) && (v <? 2 ^ (8 * Z.of_nat w))
  then Ok (le_bytes w v) else Raise StructError.

(** [<n>s] truncates or pads with null bytes to exactly [n] bytes. *)
Definition pack_s (n : nat) (b : bytes) : bytes :=
  take n b ++ replicate (n - length b) x00.

Definition pack_one (c : code) (v : value) : result bytes :=
  match c, v with
  | chars n, Bytes b => Ok (pack_s n b)
  | chars _, Int _ => Raise StructError
  | _, Int z => pack_uint (width c) z
  | _, Bytes _ => Raise StructError
  end.

Fixpoint pack (fmt : list code) (vs : list value) : result bytes :=
  match fmt, vs with
  | [], [] => Ok []
  | c :: fmt', v :: vs' =>
      d ← pack_one c v; ds ← pack fmt' vs'; mret (d ++ ds)
  | _, _ => Raise StructError
  end.

(** [struct.pack_into(fmt, buf, off, *vs)]: the packed bytes replace
    [buf[off : off + size]]; the buffer never grows. *)
Definition pack_into (fmt : list code) (buf : bytes) (off : nat)
    (vs : list value) : result bytes :=
  d ← pack fmt vs;
  if bool_decide (off + length d ≤ length buf)%nat
  then Ok (take off buf ++ d ++ drop (off + length d) buf)
  else Raise StructError.

(** Reading a little-endian unsigned integer back. *)
Definition le_decode (l : bytes) : Z :=
  foldr (fun b acc => Z_of_byte b + 256 * acc) 0 l.

End Struct.

(** [buf[off : off + len]] *)
Definition slice (buf : bytes) (off len : nat) : bytes :=
  take len (drop off buf).

(** ** Binary file objects *)

(** An open binary file: its contents so far, the position of the next
    write, and the record of the writes issued (offset and data). *)
Record file := File {
  f_data : bytes;
  f_pos : Z;
  f_writes : list (Z * bytes)
}.

(** Code that runs on an open file and may raise; the file keeps what was
    written before the exception. *)
Definition io (A : Type) : Type := file → file * result A.

#[global] Instance io_ret : MRet io := fun A a f => (f, Ok a).
#[global] Instance io_bind : MBind io := fun A B k m f =>
  match m f with
  | (f', Ok a) => k a f'
  | (f', Raise e) => (f', Raise e)
  end.

Definition io_lift {A} (r : result A) : io A := fun f => (f, r).

(** Contents after writing [d] at position [p]: a position beyond the end
    of the file leaves a gap that reads as zero; existing bytes under the
    data are overwritten. *)
Definition write_at (old : bytes) (p : nat) (d : bytes) : bytes :=
  let padded := old ++ replicate (p - length old) x00 in
  take p padded ++ d ++ drop (p + length d) padded.

(** [f.write(d)] *)
Definition f_write (d : bytes) : io unit := fun f =>
  (File (write_at (f_data f) (Z.to_nat (f_pos f)) d)
        (f_pos f + Z.of_nat (length d))
        (f_writes f ++ [(f_pos f, d)]),
   Ok ()).

(** [f.seek(p)] from the start of the file; a negative position is
    refused by the operating system. *)
Definition f_seek (p : Z) : io unit := fun f =>
  if p <? 0 then (f, Raise OSError)
  else (File (f_data f) p (f_writes f), Ok ()).

(** ** The process environment *)

(** The file system (path to contents), which paths can be opened for
    writing, what has been printed, and the writes of the files closed so
    far. *)
Record world := World {
  files : gmap string bytes;
  can_open : string → bool;
  stdout : list string;
  write_log : list (string * list (Z * bytes))
}.

Definition prog (A : Type) : Type := world → world * result A.

#[global] Instance prog_ret : MRet prog := fun A a w => (w, Ok a).
#[global] Instance prog_bind : MBind prog := fun A B k m w =>
  match m w with
  | (w', Ok a) => k a w'
  | (w', Raise e) => (w', Raise e)
  end.

Definition prog_lift {A} (r : result A) : prog A := fun w => (w, r).

(** A path holds a NUL character. *)
Fixpoint has_nul (path : string) : bool :=
  match path with
  | EmptyString => false
  | String c path' => Ascii.eqb c Ascii.zero || has_nul path'
  end.

(** What [open] raises on a path it cannot open: ValueError for a path
    with an embedded NUL, which never reaches the operating system, and
    otherwise the operating system's refusal, an OSError. *)
Definition open_error (path : string) : exn :=
  if has_nul path then ValueError else OSError.

(** [with open(path, 'wb') as f: body]: the file is created or truncated,
    the body runs, and the file is closed on every exit path, so what the
    body wrote is in the file system whether or not it raised. *)
Definition with_open_wb {A} (path : string) (body : io A) : prog A := fun w =>
  if can_open w path then
    let '(f, r) := body (File [] 0 []) in
    (World (<[path := f_data f]> (files w)) (can_open w) (stdout w)
           (write_log w ++ [(path, f_writes f)]),
     r)
  else (w, Raise (open_error path)).

(** [print(s)] *)
Definition print (s : string) : prog unit := fun w =>
  (World (files w) (can_open w) (stdout w ++ [s]) (write_log w), Ok ()).

(** [sys.exit(code)] *)
Definition sys_exit {A} (code : Z) : prog A := prog_lift (Raise (SystemExit code)).

(** ** tools/mkfat32.py *)

Import Struct.

(** *** Volume geometry (lines 6-19) *)

Definition sector_size : Z := 512.
Definition total_sectors (size_mb : Z) : Z :=
  (size_mb * 1024 * 1024) / sector_size.
Definition reserved_sectors : Z := 32.
Definition sectors_per_cluster : Z := 1.
Definition num_fats : Z := 2.
Definition root_cluster : Z := 2.
Definition total_clusters (size_mb : Z) : Z :=
  total_sectors size_mb / sectors_per_cluster.
Definition fat_size_sectors (size_mb : Z) : Z :=
  (total_clusters size_mb * 4 + 511) / 512.

(** Lines 90-91: computed by the function, used by nothing. *)
Definition used_sectors (size_mb : Z) : Z :=
  reserved_sectors + num_fats * fat_size_sectors size_mb.
Definition remaining_sectors (size_mb : Z) : Z :=
  total_sectors size_mb - used_sectors size_mb.

(** *** The boot sector (lines 26-64) *)

Definition build_bpb (size_mb : Z) : result bytes :=
  bpb ← bytearray 512;
  (* Jump instructions (EB 3C 90) *)
  bpb ← pack_into [ubyte; ubyte; ubyte] bpb 0 [Int 0xEB; Int 0x3C; Int 0x90];
  (* OEM Name *)
  bpb ← pack_into [chars 8] bpb 3 [Bytes (String.list_byte_of_string "MKFAT32 ")];
  (* BIOS Parameter Block *)
  bpb ← pack_into [ushort] bpb 11 [Int sector_size];
  bpb ← pack_into [ubyte] bpb 13 [Int sectors_per_cluster];
  bpb ← pack_into [ushort] bpb 14 [Int reserved_sectors];
  bpb ← pack_into [ubyte] bpb 16 [Int num_fats];
  bpb ← pack_into [ushort] bpb 17 [Int 0];
  bpb ← pack_into [ushort] bpb 19 [Int 0];
  bpb ← pack_into [ubyte] bpb 21 [Int 0xF8];
  bpb ← pack_into [ushort] bpb 22 [Int 0];
  bpb ← pack_into [ushort] bpb 24 [Int 32];
  bpb ← pack_into [ushort] bpb 26 [Int 64];
  bpb ← pack_into [uint] bpb 28 [Int 0];
  bpb ← pack_into [uint] bpb 32 [Int (total_sectors size_mb)];
  (* FAT32 Extended *)
  bpb ← pack_into [uint] bpb 36 [Int (fat_size_sectors size_mb)];
  bpb ← pack_into [ushort] bpb 40 [Int 0];
  bpb ← pack_into [ushort] bpb 42 [Int 0];
  bpb ← pack_into [uint] bpb 44 [Int root_cluster];
  bpb ← pack_into [ushort] bpb 48 [Int 1];
  bpb ← pack_into [ushort] bpb 50 [Int 6];
  (* Drive info *)
  bpb ← pack_into [ubyte] bpb 64 [Int 0x80];
  bpb ← pack_into [ubyte] bpb 66 [Int 0x29];
  bpb ← pack_into [uint] bpb 67 [Int 0x12345678];
  bpb ← pack_into [chars 11] bpb 71 [Bytes (String.list_byte_of_string "ICEOS DISK ")];
  bpb ← pack_into [chars 8] bpb 82 [Bytes (String.list_byte_of_string "FAT32   ")];
  (* Boot signature *)
  pack_into [ushort] bpb 510 [Int 0xAA55].

(** *** One FAT copy (lines 78-81) *)

Definition build_fat (size_mb : Z) : result bytes :=
  fat_data ← bytearray (sector_size * fat_size_sectors size_mb);
  fat_data ← pack_into [uint] fat_data 0 [Int 0x0FFFFFF8];
  fat_data ← pack_into [uint] fat_data 4 [Int 0x0FFFFFFF];
  pack_into [uint] fat_data 8 [Int 0x0FFFFFFF].

(** *** The body of the [with] block (lines 68-102) *)

Definition write_image (bpb : bytes) (size_mb : Z) : io unit :=
  (* Write Boot Sector *)
  f_write bpb;;
  (* Fill Reserved Sectors (minus boot sector) *)
  f_write (bytes_mul [x00] (sector_size * (reserved_sectors - 1)));;
  (* Write FAT 1 *)
  fat_data ← io_lift (build_fat size_mb);
  f_write fat_data;;
  (* Write FAT 2 *)
  f_write fat_data;;
  (* Initialize Root Directory (Cluster 2) *)
  f_write (bytes_mul [x00] (sector_size * sectors_per_cluster));;
  (* seek to end to make it sparse *)
  f_seek (total_sectors size_mb * sector_size - 1);;
  f_write [x00].

(** *** [create_fat32_image(filename, size_mb=32)] *)

Definition create_fat32_image (filename : string) (size_mb : option Z)
    : prog unit :=
  let size_mb := default 32 size_mb in
  bpb ← prog_lift (build_bpb size_mb);
  with_open_wb filename (write_image bpb size_mb).

(** *** The script body (lines 104-108) *)

Definition main (argv : list string) : prog unit :=
  (if bool_decide (length argv < 2)%nat
   then print "Usage: mkfat32.py <output_file>";; sys_exit 1
   else mret ());;
  match argv !! 1%nat with
  | Some path => create_fat32_image path None
  | None => prog_lift (Raise IndexError)
  end.

(** The exit status of the interpreter: 0 when the script runs to its end,
    the code of [sys.exit], 1 for any other uncaught exception. *)
Definition exit_status {A} (r : result A) : Z :=
  match r with
  | Ok _ => 0
  | Raise (SystemExit c) => c
  | Raise _ => 1
  end.

Definition run (argv : list string) (w : world) : world * Z :=
  let '(w', r) := main argv w in (w', exit_status r).

Definition empty_world : world := World ∅ (fun _ => true) [] [].

(** * Closed forms and specifications *)

(** The boot sector of the empty geometry: every field that does not
    depend on the size. *)
Definition bpb_fixed : bytes :=
  match build_bpb 0 with Ok b => b | Raise _ => [] end.

Definition bpb_layout (size_mb : Z) : bytes :=
  take 32 bpb_fixed
  ++ le_bytes 4 (total_sectors size_mb)
  ++ le_bytes 4 (fat_size_sectors size_mb)
  ++ drop 40 bpb_fixed.

Definition fat_head : bytes :=
  le_bytes 4 0x0FFFFFF8 ++ le_bytes 4 0x0FFFFFFF ++ le_bytes 4 0x0FFFFFFF.

Definition fat_bytes (size_mb : Z) : nat :=
  Z.to_nat (sector_size * fat_size_sectors size_mb).

Definition fat_layout (size_mb : Z) : bytes :=
  fat_head ++ replicate (fat_bytes size_mb - 12) x00.

Definition reserved_fill : bytes :=
  replicate (Z.to_nat (sector_size * (reserved_sectors - 1))) x00.

Definition root_dir : bytes :=
  replicate (Z.to_nat (sector_size * sectors_per_cluster)) x00.

(** Bytes written before the seek. *)
Definition written_bytes (size_mb : Z) : nat :=
  (512 + length reserved_fill + fat_bytes size_mb + fat_bytes size_mb
   + length root_dir)%nat.

Definition seek_target (size_mb : Z) : Z :=
  total_sectors size_mb * sector_size - 1.

Definition image_of (bpb : bytes) (size_mb : Z) : bytes :=
  bpb ++ reserved_fill
  ++ fat_layout size_mb ++ fat_layout size_mb
  ++ root_dir
  ++ replicate (Z.to_nat (seek_target size_mb) - written_bytes size_mb) x00
  ++ [x00].

Definition writes_of (bpb : bytes) (size_mb : Z) : list (Z * bytes) :=
  [ (0, bpb);
    (512, reserved_fill);
    (Z.of_nat (512 + length reserved_fill), fat_layout size_mb);
    (Z.of_nat (512 + length reserved_fill + fat_bytes size_mb),
     fat_layout size_mb);
    (Z.of_nat (512 + length reserved_fill + fat_bytes size_mb
               + fat_bytes size_mb), root_dir);
    (seek_target size_mb, [x00]) ].

Definition image_layout (size_mb : Z) : bytes :=
  image_of (bpb_layout size_mb) size_mb.

Definition image_writes (size_mb : Z) : list (Z * bytes) :=
  writes_of (bpb_layout size_mb) size_mb.

(** The offset of FAT copy [k] (0 or 1) and of the root directory cluster. *)
Definition fat_offset (size_mb : Z) (k : nat) : nat :=
  (Z.to_nat (reserved_sectors * sector_size) + k * fat_bytes size_mb)%nat.

Definition root_offset (size_mb : Z) : nat :=
  Z.to_nat ((reserved_sectors + num_fats * fat_size_sectors size_mb)
            * sector_size).

Definition fat_copy (img : bytes) (size_mb : Z) (k : nat) : bytes :=
  slice img (fat_offset size_mb k) (fat_bytes size_mb).

(** Entry [i] of FAT copy [k], read as a little-endian 32-bit integer. *)
Definition fat_entry (img : bytes) (size_mb : Z) (k i : nat) : Z :=
  le_decode (slice img (fat_offset size_mb k + 4 * i) 4).

(** [q] is the ceiling of the quotient [a / b] (for [0 < b]): the least
    integer that is not below it. *)
Definition is_ceiling (a b q : Z) : Prop :=
  a ≤ b * q ∧ ∀ q', a ≤ b * q' → q ≤ q'.

(** The contents of [filename] after a call that returns normally. *)
Definition produced (filename : string) (size_mb : Z) (w : world)
    : option bytes :=
  match create_fat32_image filename (Some size_mb) w with
  | (w', Ok _) => files w' !! filename
  | (_, Raise _) => None
  end.

(** Entry [i] of FAT copy [k] lies inside the image, all four bytes of
    it, and holds [v]. *)
Definition fat_entry_is (img : bytes) (size_mb : Z) (k i : nat) (v : Z)
    : Prop :=
  length (slice img (fat_offset size_mb k + 4 * i) 4) = 4%nat
  ∧ fat_entry img size_mb k i = v.

(** What C3 says of FAT copy [k] of an image. *)
Definition fat_initialised (img : bytes) (size_mb : Z) (k : nat) : Prop :=
  fat_entry_is img size_mb k 0 0x0FFFFFF8
  ∧ fat_entry_is img size_mb k 1 0x0FFFFFFF
  ∧ fat_entry_is img size_mb k 2 0x0FFFFFFF
  ∧ ∀ i, (3 ≤ i)%nat → Z.of_nat i < total_clusters size_mb →
      fat_entry_is img size_mb k i 0.

Inductive field_value :=
  | FInt (v : Z)       (* an integer, stored little-endian *)
  | FRaw (b : bytes).  (* raw bytes *)

(** The table of the boot-sector layout: offset, length, value.  The two
    computed fields hold the geometry's total_sectors and
    fat_size_sectors. *)
Definition section6_table (size_mb : Z) : list (nat * nat * field_value) :=
  [ (0, 3, FRaw [xeb; x3c; x90]);
    (3, 8, FRaw (String.list_byte_of_string "MKFAT32 "));
    (11, 2, FInt 512);
    (13, 1, FInt 1);
    (14, 2, FInt 32);
    (16, 1, FInt 2);
    (17, 2, FInt 0);
    (19, 2, FInt 0);
    (21, 1, FInt 0xF8);
    (22, 2, FInt 0);
    (24, 2, FInt 32);
    (26, 2, FInt 64);
    (28, 4, FInt 0);
    (32, 4, FInt (total_sectors size_mb));
    (36, 4, FInt (fat_size_sectors size_mb));
    (40, 2, FInt 0);
    (42, 2, FInt 0);
    (44, 4, FInt 2);
    (48, 2, FInt 1);
    (50, 2, FInt 6);
    (64, 1, FInt 0x80);
    (66, 1, FInt 0x29);
    (67, 4, FInt 0x12345678);
    (71, 11, FRaw (String.list_byte_of_string "ICEOS DISK "));
    (82, 8, FRaw (String.list_byte_of_string "FAT32   "));
    (510, 2, FInt 0xAA55) ]%nat.

(** The bytes at a row's offset are the row's value. *)
Definition field_holds (sector : bytes) (row : nat * nat * field_value)
    : Prop :=
  length (slice sector row.1.1 row.1.2) = row.1.2
  ∧ match row.2 with
    | FInt v => le_decode (slice sector row.1.1 row.1.2) = v
    | FRaw b => slice sector row.1.1 row.1.2 = b
    end.

(** Byte [i] lies inside some row of the table. *)
Definition covered (tbl : list (nat * nat * field_value)) (i : nat) : bool :=
  existsb (λ row, (row.1.1 <=? i)%nat && (i <? row.1.1 + row.1.2)%nat) tbl.

Definition boot_sector_ok (size_mb : Z) (sector : bytes) : Prop :=
  length sector = 512%nat
  ∧ Forall (field_holds sector) (section6_table size_mb)
  ∧ ∀ i, (i < 512)%nat → covered (section6_table size_mb) i = false →
      sector !! i = Some x00.

Definition is_zero_byte (b : option byte) : bool :=
  match b with Some x00 => true | _ => false end.

(** The writes a call issues: what it appends to the log of the world. *)
Definition emitted (filename : string) (size_mb : option Z) (w : world)
    : list (string * list (Z * bytes)) :=
  drop (length (write_log w))
    (write_log (create_fat32_image filename size_mb w).1).

Definition usage : string := "Usage: mkfat32.py <output_file>".

(** Sector [n] of an image. *)
Definition sector (img : bytes) (n : nat) : bytes :=
  slice img (n * 512) 512.

(** Each write of [ws] starts at or after [pos], the end of the one
    before it: no byte is written twice. *)
Fixpoint front_to_back (pos : Z) (ws : list (Z * bytes)) : Prop :=
  match ws with
  | [] => True
  | wr :: ws' =>
      pos ≤ wr.1 ∧ front_to_back (wr.1 + Z.of_nat (length wr.2)) ws'
  end.

(** The number of bytes handed to [write]. *)
Definition bytes_written (ws : list (Z * bytes)) : Z :=
  foldr (λ wr acc, Z.of_nat (length wr.2) + acc) 0 ws.

(** A world in which no path can be opened. *)
Definition locked_world : world := World ∅ (fun _ => false) [] [].

(** The little-endian integer held by [len] bytes at offset [off]. *)
Definition header (img : bytes) (off len : nat) : Z :=
  le_decode (slice img off len).

(** * Properties *)

(** ** The model on small inputs *)

Example pack_boot_signature : pack [ushort] [Int 0xAA55] = Ok [x55; xaa].
Proof. reflexivity. Qed.

Example pack_uint_too_large :
  pack_into [uint] (replicate 8 x00) 4 [Int 4294967296] = Raise StructError.
Proof. reflexivity. Qed.

Example pack_into_short_buffer :
  pack_into [uint] [] 0 [Int 0x0FFFFFF8] = Raise StructError.
Proof. reflexivity. Qed.

Example pack_chars_pads :
  pack [chars 4] [Bytes [x41; x42]] = Ok [x41; x42; x00; x00].
Proof. reflexivity. Qed.

Example write_past_end :
  write_at [x01; x02] 4 [x03] = [x01; x02; x00; x00; x03].
Proof. reflexivity. Qed.

Example write_over :
  write_at [x01; x02; x03] 1 [x09] = [x01; x09; x03].
Proof. reflexivity. Qed.

(** A size of zero opens the file, writes the reserved sectors and then
    fails on the empty FAT buffer; the 16384 bytes written stay. *)
Example size_zero_raises :
  (create_fat32_image "disk.img" (Some 0) empty_world).2 = Raise StructError
  ∧ length <$> files (create_fat32_image "disk.img" (Some 0) empty_world).1
               !! "disk.img"
    = Some (Z.to_nat 16384).
Proof. by vm_compute. Qed.

(** A negative size fails before the file is opened. *)
Example size_negative_raises :
  create_fat32_image "disk.img" (Some (-1)) empty_world
  = (empty_world, Raise StructError).
Proof. by vm_compute. Qed.

(** ** Bytes and little-endian fields *)

Lemma Z_of_byte_of_Z (z : Z) : Z_of_byte (byte_of_Z z) = z mod 256.
Proof.
  unfold Z_of_byte, byte_of_Z.
  assert (Hr : 0 ≤ z mod 256 < 256) by (apply Z.mod_pos_bound; lia).
  destruct (Byte.of_N (Z.to_N (z mod 256))) as [b|] eqn:E; simpl.
  - apply Byte.to_of_N in E. rewrite E. lia.
  - apply Byte.of_N_None_iff in E. lia.
Qed.

Lemma Z_of_byte_range (b : byte) : 0 ≤ Z_of_byte b < 256.
Proof.
  unfold Z_of_byte. pose proof (Byte.to_N_bounded b). lia.
Qed.

Lemma length_le_bytes (w : nat) (v : Z) : length (le_bytes w v) = w.
Proof.
  revert v. induction w as [|w IH]; intros v; simpl; [done|]. by rewrite IH.
Qed.

Lemma le_decode_le_bytes (w : nat) (v : Z) :
  le_decode (le_bytes w v) = v mod 2 ^ (8 * Z.of_nat w).
Proof.
  revert v. induction w as [|w IH]; intros v.
  - simpl. by rewrite Z.mod_1_r.
  - change (le_decode (le_bytes (S w) v))
      with (Z_of_byte (byte_of_Z (Z.land v 255))
            + 256 * le_decode (le_bytes w (Z.shiftr v 8))).
    rewrite IH, Z_of_byte_of_Z.
    change 255 with (Z.ones 8).
    rewrite Z.land_ones, Z.shiftr_div_pow2 by lia.
    rewrite Z.mod_mod by lia.
    replace (8 * Z.of_nat (S w)) with (8 + 8 * Z.of_nat w) by lia.
    rewrite Z.pow_add_r by lia.
    change (2 ^ 8) with 256.
    rewrite Z.rem_mul_r by lia. done.
Qed.

Lemma le_decode_pack_uint (w : nat) (v : Z) (d : bytes) :
  pack_uint w v = Ok d → length d = w ∧ le_decode d = v.
Proof.
  unfold pack_uint. destruct (_ && _) eqn:E; [|done].
  intros [= <-]. split; [apply length_le_bytes|].
  rewrite le_decode_le_bytes. apply Z.mod_small. lia.
Qed.

Lemma pack_uint_ok (w : nat) (v : Z) :
  0 ≤ v < 2 ^ (8 * Z.of_nat w) → pack_uint w v = Ok (le_bytes w v).
Proof.
  intros Hv. unfold pack_uint.
  destruct (_ && _) eqn:E; [done|]. lia.
Qed.

Lemma pack_I_ok (v : Z) :
  0 ≤ v < 2 ^ 32 → pack [uint] [Int v] = Ok (le_bytes 4 v).
Proof.
  intros Hv. cbn [pack pack_one width].
  rewrite pack_uint_ok by (change (8 * Z.of_nat 4) with 32; lia).
  cbn [mbind result_bind mret result_ret]. by rewrite app_nil_r.
Qed.

Lemma pack_I_overflow (v : Z) :
  2 ^ 32 ≤ v → pack [uint] [Int v] = Raise StructError.
Proof.
  intros Hv. cbn [pack pack_one width]. unfold pack_uint.
  destruct (_ && _) eqn:E; [|done].
  apply andb_true_iff in E as [_ E]. apply Z.ltb_lt in E.
  change (8 * Z.of_nat 4) with 32 in E. lia.
Qed.

Lemma le_bytes_4_shape (v : Z) :
  ∃ a b c d : byte, le_bytes 4 v = [a; b; c; d].
Proof. simpl. by eexists _, _, _, _. Qed.

(** ** Geometry in closed form *)

Lemma total_sectors_eq (size_mb : Z) : total_sectors size_mb = 2048 * size_mb.
Proof.
  unfold total_sectors, sector_size.
  replace (size_mb * 1024 * 1024) with (2048 * size_mb * 512) by lia.
  apply Z.div_mul. lia.
Qed.

Lemma total_clusters_eq (size_mb : Z) : total_clusters size_mb = 2048 * size_mb.
Proof.
  unfold total_clusters, sectors_per_cluster.
  rewrite Z.div_1_r. apply total_sectors_eq.
Qed.

Lemma fat_size_sectors_eq (size_mb : Z) : fat_size_sectors size_mb = 16 * size_mb.
Proof.
  unfold fat_size_sectors. rewrite total_clusters_eq.
  replace (2048 * size_mb * 4 + 511) with (511 + 16 * size_mb * 512) by lia.
  rewrite Z.div_add by lia. change (511 / 512) with 0. lia.
Qed.

(** ** The boot sector in closed form *)

Lemma build_bpb_ok (size_mb : Z) :
  0 ≤ size_mb < 2097152 → build_bpb size_mb = Ok (bpb_layout size_mb).
Proof.
  intros Hs. unfold build_bpb, bpb_layout, pack_into.
  rewrite (pack_I_ok (total_sectors size_mb))
    by (rewrite total_sectors_eq; change (2 ^ 32) with 4294967296; lia).
  rewrite (pack_I_ok (fat_size_sectors size_mb))
    by (rewrite fat_size_sectors_eq; change (2 ^ 32) with 4294967296; lia).
  destruct (le_bytes_4_shape (total_sectors size_mb)) as (a & b & c & d & ->).
  destruct (le_bytes_4_shape (fat_size_sectors size_mb)) as (e & f & g & h & ->).
  vm_compute. reflexivity.
Qed.

Lemma build_bpb_overflow (size_mb : Z) :
  2097152 ≤ size_mb → build_bpb size_mb = Raise StructError.
Proof.
  intros Hs. unfold build_bpb, pack_into.
  rewrite (pack_I_overflow (total_sectors size_mb))
    by (rewrite total_sectors_eq; change (2 ^ 32) with 4294967296; lia).
  vm_compute. reflexivity.
Qed.

Lemma length_bpb_layout (size_mb : Z) : length (bpb_layout size_mb) = 512%nat.
Proof.
  unfold bpb_layout. rewrite !length_app, !length_le_bytes. reflexivity.
Qed.

(** ** The FAT in closed form *)

(** A field packed inside a prefix of the buffer leaves the rest alone. *)
Lemma pack_into_app fmt (pre tl : bytes) off vs r :
  pack_into fmt pre off vs = Ok r →
  pack_into fmt (pre ++ tl) off vs = Ok (r ++ tl).
Proof.
  unfold pack_into. destruct (pack fmt vs) as [d|e]; [|done].
  cbn [mbind result_bind]. case_bool_decide as Hfit; [|done].
  intros [= <-]. rewrite bool_decide_true by (rewrite length_app; lia).
  rewrite take_app_le, drop_app_le by lia.
  by rewrite <- !app_assoc.
Qed.

Lemma fat_bytes_eq (size_mb : Z) : fat_bytes size_mb = Z.to_nat (8192 * size_mb).
Proof.
  unfold fat_bytes, sector_size. rewrite fat_size_sectors_eq. f_equal. lia.
Qed.

Lemma build_fat_ok (size_mb : Z) :
  1 ≤ size_mb → build_fat size_mb = Ok (fat_layout size_mb).
Proof.
  intros Hs. unfold build_fat, bytearray, fat_layout.
  pose proof (fat_bytes_eq size_mb) as Hn. unfold fat_bytes in *.
  destruct (_ <? 0) eqn:E; [lia|].
  set (n := Z.to_nat _) in *.
  replace n with (12 + (n - 12))%nat at 1 by lia.
  rewrite replicate_add. cbn [mbind result_bind].
  erewrite pack_into_app by (vm_compute; reflexivity). cbn [mbind result_bind].
  erewrite pack_into_app by (vm_compute; reflexivity). cbn [mbind result_bind].
  erewrite pack_into_app by (vm_compute; reflexivity).
  reflexivity.
Qed.

Lemma length_fat_layout (size_mb : Z) :
  1 ≤ size_mb → length (fat_layout size_mb) = fat_bytes size_mb.
Proof.
  intros Hs. unfold fat_layout.
  rewrite length_app, length_replicate, fat_bytes_eq.
  change (length fat_head) with 12%nat. lia.
Qed.

(** ** Writing at and beyond the end of a file *)

Lemma write_at_gap (old d : bytes) (p : nat) :
  (length old ≤ p)%nat →
  write_at old p d = old ++ replicate (p - length old) x00 ++ d.
Proof.
  intros Hp. unfold write_at.
  rewrite take_ge, drop_ge by (rewrite length_app, length_replicate; lia).
  by rewrite app_nil_r, <- app_assoc.
Qed.

Lemma write_at_end (old d : bytes) : write_at old (length old) d = old ++ d.
Proof.
  rewrite write_at_gap by lia. by rewrite Nat.sub_diag.
Qed.

Lemma bytes_mul_single (b : byte) (n : Z) :
  bytes_mul [b] n = replicate (Z.to_nat n) b.
Proof.
  unfold bytes_mul. induction (Z.to_nat n) as [|k IH]; [done|].
  simpl. by rewrite IH.
Qed.

Lemma io_bind_run {A B} (m : io A) (k : A → io B) (f f' : file) (a : A) :
  m f = (f', Ok a) → (m ≫= k) f = k a f'.
Proof. intros Hm. unfold mbind, io_bind. by rewrite Hm. Qed.

(** A write with the position at the end of the file appends. *)
Lemma f_write_append (d data : bytes) (log : list (Z * bytes)) :
  f_write d (File data (Z.of_nat (length data)) log)
  = (File (data ++ d) (Z.of_nat (length (data ++ d)))
       (log ++ [(Z.of_nat (length data), d)]), Ok ()).
Proof.
  unfold f_write. cbn [f_data f_pos f_writes].
  rewrite Nat2Z.id, write_at_end, length_app. do 2 f_equal. lia.
Qed.

(** ** Slices *)

Lemma slice_app_skip (a b : bytes) (n off len : nat) :
  n = length a → slice (a ++ b) (n + off) len = slice b off len.
Proof. intros ->. unfold slice. by rewrite drop_app_add. Qed.

Lemma slice_app_in (a b : bytes) (off len : nat) :
  (off + len ≤ length a)%nat → slice (a ++ b) off len = slice a off len.
Proof.
  intros H. unfold slice. rewrite drop_app_le by lia.
  apply take_app_le. rewrite length_drop. lia.
Qed.

Lemma slice_app_whole (a b : bytes) (len : nat) :
  len = length a → slice (a ++ b) 0 len = a.
Proof. intros ->. unfold slice. rewrite drop_0. apply take_app_length. Qed.

Lemma slice_replicate (n off len : nat) (x : byte) :
  (off + len ≤ n)%nat → slice (replicate n x) off len = replicate len x.
Proof.
  intros H. unfold slice. rewrite drop_replicate, take_replicate.
  f_equal. lia.
Qed.

(** ** The image in closed form *)

Lemma length_reserved_fill : length reserved_fill = Z.to_nat 15872.
Proof. unfold reserved_fill. by rewrite length_replicate. Qed.

Lemma length_root_dir : length root_dir = 512%nat.
Proof. unfold root_dir. by rewrite length_replicate. Qed.

Lemma written_bytes_eq (size_mb : Z) :
  1 ≤ size_mb →
  Z.of_nat (written_bytes size_mb) = 16896 + 16384 * size_mb.
Proof.
  intros Hs. unfold written_bytes.
  rewrite length_reserved_fill, length_root_dir, fat_bytes_eq. lia.
Qed.

Lemma seek_target_eq (size_mb : Z) :
  seek_target size_mb = size_mb * 1024 * 1024 - 1.
Proof. unfold seek_target, sector_size. rewrite total_sectors_eq. lia. Qed.

Lemma f_seek_run (p : Z) (f : file) :
  0 ≤ p → f_seek p f = (File (f_data f) p (f_writes f), Ok ()).
Proof. intros Hp. unfold f_seek. destruct (p <? 0) eqn:E; [lia|done]. Qed.

Section image.
Context (bpb : bytes) (size_mb : Z).
Hypothesis Hb : length bpb = 512%nat.
Hypothesis Hs : 1 ≤ size_mb.

Lemma write_image_run :
  write_image bpb size_mb (File [] 0 [])
  = (File (image_of bpb size_mb) (seek_target size_mb + 1)
       (writes_of bpb size_mb), Ok ()).
Proof.
  unfold write_image.
  change (File [] 0 []) with (File [] (Z.of_nat (length (@nil byte))) []).
  erewrite io_bind_run by apply f_write_append. cbv beta.
  erewrite io_bind_run by apply f_write_append. cbv beta.
  rewrite build_fat_ok by done.
  erewrite io_bind_run by reflexivity. cbv beta.
  erewrite io_bind_run by apply f_write_append. cbv beta.
  erewrite io_bind_run by apply f_write_append. cbv beta.
  erewrite io_bind_run by apply f_write_append. cbv beta.
  rewrite !bytes_mul_single. fold reserved_fill root_dir (seek_target size_mb).
  pose proof (written_bytes_eq size_mb Hs) as Hw.
  pose proof (seek_target_eq size_mb) as Ht.
  erewrite io_bind_run by (apply f_seek_run; lia). cbv beta.
  unfold f_write. cbn [f_data f_pos f_writes].
  rewrite !app_nil_l, !length_app, !Hb, !length_fat_layout by done.
  fold (written_bytes size_mb).
  rewrite write_at_gap
    by (rewrite !length_app, Hb, !length_fat_layout by done;
        fold (written_bytes size_mb); lia).
  rewrite !length_app, !Hb, !length_fat_layout by done.
  fold (written_bytes size_mb).
  unfold image_of, writes_of.
  rewrite <- !app_assoc. reflexivity.
Qed.

Lemma length_image_of :
  Z.of_nat (length (image_of bpb size_mb)) = size_mb * 1024 * 1024.
Proof.
  unfold image_of.
  pose proof (written_bytes_eq size_mb Hs) as Hw.
  pose proof (seek_target_eq size_mb) as Ht.
  rewrite !length_app, Hb, !length_fat_layout, length_replicate by done.
  unfold written_bytes in *. cbn [length]. lia.
Qed.

Lemma image_boot_sector : take 512 (image_of bpb size_mb) = bpb.
Proof. unfold image_of. by apply take_app_length'. Qed.

Lemma image_fat_copy (k : nat) :
  (k < 2)%nat →
  ∀ off len, (off + len ≤ fat_bytes size_mb)%nat →
    slice (image_of bpb size_mb) (fat_offset size_mb k + off) len
    = slice (fat_layout size_mb) off len.
Proof.
  intros Hk off len Hfit. unfold image_of, fat_offset.
  pose proof (length_fat_layout size_mb Hs) as Hf.
  pose proof length_reserved_fill as Hr.
  rewrite (app_assoc bpb).
  assert (Hpre : Z.to_nat (reserved_sectors * sector_size)
                 = length (bpb ++ reserved_fill)).
  { rewrite length_app, Hb, Hr. unfold reserved_sectors, sector_size. lia. }
  rewrite <- Nat.add_assoc.
  rewrite (slice_app_skip _ _ _ _ _ Hpre).
  destruct k as [|[|k]]; [| |lia].
  - rewrite Nat.mul_0_l, Nat.add_0_l. apply slice_app_in. lia.
  - rewrite Nat.mul_1_l.
    rewrite (slice_app_skip _ _ _ _ _ (eq_sym Hf)).
    apply slice_app_in. lia.
Qed.

Lemma image_root_dir :
  slice (image_of bpb size_mb) (root_offset size_mb) 512 = root_dir.
Proof.
  unfold image_of, root_offset.
  pose proof (length_fat_layout size_mb Hs) as Hf.
  pose proof (fat_bytes_eq size_mb) as Hfe.
  pose proof length_reserved_fill as Hr.
  rewrite (app_assoc bpb), (app_assoc (bpb ++ _)), (app_assoc ((bpb ++ _) ++ _)).
  assert (Hpre : Z.to_nat ((reserved_sectors + num_fats * fat_size_sectors size_mb)
                           * sector_size)
                 = (length (((bpb ++ reserved_fill) ++ fat_layout size_mb)
                            ++ fat_layout size_mb) + 0)%nat).
  { rewrite !length_app, Hb, Hr, Hf, Hfe, fat_size_sectors_eq.
    unfold reserved_sectors, sector_size, num_fats. lia. }
  rewrite Hpre, (slice_app_skip _ _ _ _ _ eq_refl).
  apply slice_app_whole. by rewrite length_root_dir.
Qed.

End image.


(** ** The whole function *)

Lemma create_fat32_image_default (filename : string) :
  create_fat32_image filename None = create_fat32_image filename (Some 32).
Proof. reflexivity. Qed.

Lemma create_fat32_image_ok (filename : string) (size_mb : Z) (w : world) :
  1 ≤ size_mb < 2097152 →
  can_open w filename = true →
  create_fat32_image filename (Some size_mb) w
  = (World (<[filename := image_layout size_mb]> (files w)) (can_open w)
       (stdout w) (write_log w ++ [(filename, image_writes size_mb)]),
     Ok ()).
Proof.
  intros Hs Hopen. unfold create_fat32_image.
  change (default 32 (Some size_mb)) with size_mb. cbv zeta.
  unfold mbind at 1, prog_bind, prog_lift.
  rewrite build_bpb_ok by lia.
  unfold with_open_wb. rewrite Hopen.
  rewrite write_image_run by (apply length_bpb_layout || lia).
  reflexivity.
Qed.

Lemma create_fat32_image_overflow (filename : string) (size_mb : Z) (w : world) :
  2097152 ≤ size_mb →
  create_fat32_image filename (Some size_mb) w = (w, Raise StructError).
Proof.
  intros Hs. unfold create_fat32_image.
  change (default 32 (Some size_mb)) with size_mb. cbv zeta.
  unfold mbind at 1, prog_bind, prog_lift.
  by rewrite build_bpb_overflow.
Qed.

Lemma round_up_is_ceiling (a : Z) : is_ceiling a 512 ((a + 511) / 512).
Proof.
  pose proof (Z.div_mod (a + 511) 512 ltac:(lia)) as Hdm.
  pose proof (Z.mod_pos_bound (a + 511) 512 ltac:(lia)) as Hm.
  split; [lia|]. intros q' Hq'. lia.
Qed.

(** C4. For every positive size the FAT size in sectors is the ceiling of
    total_clusters * 4 / 512, where total_clusters = total_sectors =
    (size_mb * 1024 * 1024) / 512 by integer division; a 1 MB volume has
    2048 sectors, 2048 clusters and a FAT of 16 sectors. *)
Theorem fat_size_is_ceiling (size_mb : Z) :
  0 < size_mb →
  total_sectors size_mb = (size_mb * 1024 * 1024) / 512
  ∧ total_clusters size_mb = total_sectors size_mb
  ∧ is_ceiling (total_clusters size_mb * 4) 512 (fat_size_sectors size_mb)
  ∧ (size_mb = 1 →
     total_sectors size_mb = 2048 ∧ total_clusters size_mb = 2048
     ∧ fat_size_sectors size_mb = 16).
Proof.
  intros Hs. split; [reflexivity|]. split.
  { unfold total_clusters, sectors_per_cluster. apply Z.div_1_r. }
  split; [apply round_up_is_ceiling|].
  intros ->. by vm_compute.
Qed.

Lemma fat_size_is_ceiling_witness :
  total_sectors 1 = (1 * 1024 * 1024) / 512
  ∧ total_clusters 1 = total_sectors 1
  ∧ is_ceiling (total_clusters 1 * 4) 512 (fat_size_sectors 1)
  ∧ (1 = 1 →
     total_sectors 1 = 2048 ∧ total_clusters 1 = 2048
     ∧ fat_size_sectors 1 = 16).
Proof. apply (fat_size_is_ceiling 1). lia. Defined.

(** C10. For every positive size the sectors written before the seek fit
    inside the volume: reserved_sectors + num_fats * fat_size_sectors +
    sectors_per_cluster <= total_sectors.  So the data area is not
    negative, and every write issued before the seek ends at or before
    the seek target total_sectors * 512 - 1, at which the last write is
    issued. *)
Theorem written_sectors_fit (size_mb : Z) :
  0 < size_mb →
  reserved_sectors + num_fats * fat_size_sectors size_mb + sectors_per_cluster
    ≤ total_sectors size_mb
  ∧ 0 ≤ remaining_sectors size_mb - sectors_per_cluster
  ∧ ∀ bpb : bytes, length bpb = 512%nat →
      ∃ before,
        f_writes (write_image bpb size_mb (File [] 0 [])).1
        = before ++ [(total_sectors size_mb * sector_size - 1, [x00])]
        ∧ Forall (λ wr : Z * bytes,
                    wr.1 + Z.of_nat (length wr.2)
                    ≤ total_sectors size_mb * sector_size - 1) before
        ∧ (∃ d, last before
                = Some ((used_sectors size_mb + sectors_per_cluster) * sector_size
                        - Z.of_nat (length d), d)).
Proof.
  intros Hs.
  pose proof (total_sectors_eq size_mb) as Ht.
  pose proof (fat_size_sectors_eq size_mb) as Hf.
  unfold remaining_sectors, used_sectors, reserved_sectors, num_fats,
    sectors_per_cluster.
  split; [lia|]. split; [lia|].
  intros bpb Hb. rewrite write_image_run by (done || lia).
  cbn [fst f_writes]. unfold writes_of.
  eexists [_; _; _; _; _]. split; [reflexivity|].
  pose proof (written_bytes_eq size_mb ltac:(lia)) as Hw.
  pose proof (fat_bytes_eq size_mb) as Hfb.
  pose proof length_reserved_fill as Hr.
  pose proof length_root_dir as Hrd.
  pose proof (length_fat_layout size_mb ltac:(lia)) as Hfl.
  unfold written_bytes in Hw. unfold sector_size.
  split.
  - repeat (constructor; [cbn [fst snd]; lia|]). constructor.
  - exists root_dir. cbn [last]. do 2 f_equal. lia.
Qed.

Lemma written_sectors_fit_witness :
  0 < 1
  ∧ reserved_sectors + num_fats * fat_size_sectors 1 + sectors_per_cluster
    ≤ total_sectors 1.
Proof. split; [lia|]. apply (written_sectors_fit 1). lia. Defined.

(** ** The produced file *)

Lemma produced_ok (filename : string) (size_mb : Z) (w : world) :
  1 ≤ size_mb < 2097152 →
  can_open w filename = true →
  produced filename size_mb w = Some (image_layout size_mb).
Proof.
  intros Hs Hopen. unfold produced.
  rewrite create_fat32_image_ok by done. cbn [files].
  apply lookup_insert_eq.
Qed.

Lemma produced_overflow (filename : string) (size_mb : Z) (w : world) :
  2097152 ≤ size_mb → produced filename size_mb w = None.
Proof.
  intros Hs. unfold produced. by rewrite create_fat32_image_overflow.
Qed.

(** No image at all rules out an image with any given property. *)
Ltac no_image :=
  let Himg := fresh "Himg" in
  intros (? & Himg & _); by rewrite produced_overflow in Himg.

(** C1, as stated: every positive size yields a file of exactly
    size_mb * 1024 * 1024 bytes.  It fails at 2097152 MB, where
    total_sectors is 2^32 and does not fit the 32-bit field at offset 32:
    struct.error is raised before the file is opened, and no file is
    produced. *)
Lemma image_length_fails_at_2097152 :
  create_fat32_image "disk.img" (Some 2097152) empty_world
    = (empty_world, Raise StructError)
  ∧ ¬ (∃ img, produced "disk.img" 2097152 empty_world = Some img
              ∧ Z.of_nat (length img) = 2097152 * 1024 * 1024).
Proof.
  split; [by apply create_fat32_image_overflow|]. no_image.
Qed.

(** C1, amended: for every size from 1 to 2097151 MB, written to a path
    that can be opened, the call returns normally and the file has
    exactly size_mb * 1024 * 1024 bytes, which is total_sectors * 512;
    the last write issued on it is the single zero byte at offset
    size_mb * 1024 * 1024 - 1. *)
Theorem image_length_exact (filename : string) (size_mb : Z) (w : world) :
  1 ≤ size_mb < 2097152 →
  can_open w filename = true →
  ∃ w' img ws,
    create_fat32_image filename (Some size_mb) w = (w', Ok ())
    ∧ files w' !! filename = Some img
    ∧ Z.of_nat (length img) = size_mb * 1024 * 1024
    ∧ Z.of_nat (length img) = total_sectors size_mb * 512
    ∧ last (write_log w') = Some (filename, ws)
    ∧ last ws = Some (size_mb * 1024 * 1024 - 1, [x00]).
Proof.
  intros Hs Hopen. eexists _, _, _.
  split; [by apply create_fat32_image_ok|]. cbn [files write_log].
  split; [apply lookup_insert_eq|].
  pose proof (length_image_of (bpb_layout size_mb) size_mb
                (length_bpb_layout size_mb) ltac:(lia)) as Hlen.
  split; [exact Hlen|].
  split; [rewrite total_sectors_eq; unfold image_layout; lia|].
  split; [apply last_snoc|].
  unfold image_writes, writes_of. cbn [last].
  by rewrite seek_target_eq.
Qed.

Lemma image_length_exact_witness :
  ∃ w' img ws,
    create_fat32_image "disk.img" (Some 1) empty_world = (w', Ok ())
    ∧ files w' !! "disk.img" = Some img
    ∧ Z.of_nat (length img) = 1 * 1024 * 1024
    ∧ Z.of_nat (length img) = total_sectors 1 * 512
    ∧ last (write_log w') = Some ("disk.img", ws)
    ∧ last ws = Some (1 * 1024 * 1024 - 1, [x00]).
Proof. apply (image_length_exact "disk.img" 1 empty_world); [lia|reflexivity]. Defined.

(** C5, as stated, fails at 2097152 MB: no file is produced, so there are
    no FAT regions to compare. *)
Lemma fat_copies_fail_at_2097152 :
  produced "disk.img" 2097152 empty_world = None
  ∧ ¬ (∃ img, produced "disk.img" 2097152 empty_world = Some img
              ∧ fat_copy img 2097152 0 = fat_copy img 2097152 1).
Proof.
  split; [by apply produced_overflow|]. no_image.
Qed.

(** C5, amended: for every size from 1 to 2097151 MB, written to a path
    that can be opened, the two FAT regions of the produced file, each of
    fat_size_sectors * 512 bytes, the first at byte offset
    reserved_sectors * 512 and the second right after it, are
    byte-identical. *)
Theorem fat_copies_identical (filename : string) (size_mb : Z) (w : world) :
  1 ≤ size_mb < 2097152 →
  can_open w filename = true →
  ∃ img,
    produced filename size_mb w = Some img
    ∧ fat_copy img size_mb 0 = fat_copy img size_mb 1
    ∧ length (fat_copy img size_mb 0)
      = Z.to_nat (fat_size_sectors size_mb * 512)
    ∧ fat_offset size_mb 0 = Z.to_nat (reserved_sectors * 512)
    ∧ fat_offset size_mb 1
      = Z.to_nat (reserved_sectors * 512 + fat_size_sectors size_mb * 512).
Proof.
  intros Hs Hopen. exists (image_layout size_mb).
  split; [by apply produced_ok|].
  assert (Hcopy : ∀ k, (k < 2)%nat →
            fat_copy (image_layout size_mb) size_mb k = fat_layout size_mb).
  { intros k Hk. unfold fat_copy, image_layout.
    rewrite <- (Nat.add_0_r (fat_offset size_mb k)).
    rewrite image_fat_copy by (apply length_bpb_layout || lia).
    unfold slice. rewrite drop_0. apply take_ge.
    rewrite length_fat_layout; lia. }
  pose proof (fat_bytes_eq size_mb) as Hfb.
  pose proof (fat_size_sectors_eq size_mb) as Hf.
  split; [by rewrite !Hcopy by lia|].
  split; [rewrite Hcopy, length_fat_layout by lia; lia|].
  unfold fat_offset, reserved_sectors, sector_size. lia.
Qed.

Lemma fat_copies_identical_witness :
  ∃ img,
    produced "disk.img" 1 empty_world = Some img
    ∧ fat_copy img 1 0 = fat_copy img 1 1
    ∧ length (fat_copy img 1 0) = Z.to_nat (fat_size_sectors 1 * 512)
    ∧ fat_offset 1 0 = Z.to_nat (reserved_sectors * 512)
    ∧ fat_offset 1 1
      = Z.to_nat (reserved_sectors * 512 + fat_size_sectors 1 * 512).
Proof. apply (fat_copies_identical "disk.img" 1 empty_world); [lia|reflexivity]. Defined.

(** C6, as stated, fails at 2097152 MB: no file is produced. *)
Lemma root_cluster_fails_at_2097152 :
  produced "disk.img" 2097152 empty_world = None
  ∧ ¬ (∃ img, produced "disk.img" 2097152 empty_world = Some img
              ∧ slice img (root_offset 2097152) 512 = replicate 512 x00).
Proof.
  split; [by apply produced_overflow|]. no_image.
Qed.

(** C6, amended: for every size from 1 to 2097151 MB, written to a path
    that can be opened, the root directory cluster of the produced file,
    the sector_size * sectors_per_cluster = 512 bytes that start right
    after the two FAT copies at byte offset
    (reserved_sectors + 2 * fat_size_sectors) * 512, is entirely zero. *)
Theorem root_cluster_zero (filename : string) (size_mb : Z) (w : world) :
  1 ≤ size_mb < 2097152 →
  can_open w filename = true →
  ∃ img,
    produced filename size_mb w = Some img
    ∧ slice img (root_offset size_mb)
        (Z.to_nat (sector_size * sectors_per_cluster))
      = replicate 512 x00
    ∧ root_offset size_mb
      = Z.to_nat ((reserved_sectors + 2 * fat_size_sectors size_mb) * 512)
    ∧ root_offset size_mb = (fat_offset size_mb 1 + fat_bytes size_mb)%nat.
Proof.
  intros Hs Hopen. exists (image_layout size_mb).
  split; [by apply produced_ok|].
  split.
  { unfold image_layout.
    change (Z.to_nat (sector_size * sectors_per_cluster)) with 512%nat.
    by rewrite image_root_dir by (apply length_bpb_layout || lia). }
  split; [reflexivity|].
  pose proof (fat_bytes_eq size_mb) as Hfb.
  pose proof (fat_size_sectors_eq size_mb) as Hf.
  unfold root_offset, fat_offset, reserved_sectors, sector_size, num_fats. lia.
Qed.

Lemma root_cluster_zero_witness :
  ∃ img,
    produced "disk.img" 1 empty_world = Some img
    ∧ slice img (root_offset 1) (Z.to_nat (sector_size * sectors_per_cluster))
      = replicate 512 x00
    ∧ root_offset 1 = Z.to_nat ((reserved_sectors + 2 * fat_size_sectors 1) * 512)
    ∧ root_offset 1 = (fat_offset 1 1 + fat_bytes 1)%nat.
Proof. apply (root_cluster_zero "disk.img" 1 empty_world); [lia|reflexivity]. Defined.

(** An image with an initialised FAT copy holds that copy up to its last
    entry: a file cut short inside the FAT does not qualify. *)
Lemma fat_initialised_inside (img : bytes) (size_mb : Z) (k : nat) :
  1 ≤ size_mb →
  fat_initialised img size_mb k →
  Z.of_nat (fat_offset size_mb k) + 4 * total_clusters size_mb
  ≤ Z.of_nat (length img).
Proof.
  intros Hs (_ & _ & _ & Hrest).
  pose proof (total_clusters_eq size_mb) as Htc.
  destruct (Hrest (Z.to_nat (total_clusters size_mb - 1)) ltac:(lia) ltac:(lia))
    as [Hlen _].
  unfold slice in Hlen. rewrite length_take, length_drop in Hlen. lia.
Qed.

(** C3, as stated, fails at 2097152 MB: no file is produced, so there is
    no FAT whose entries could be read. *)
Lemma fat_entries_fail_at_2097152 :
  produced "disk.img" 2097152 empty_world = None
  ∧ ¬ (∃ img, produced "disk.img" 2097152 empty_world = Some img
              ∧ ∀ k, (k < 2)%nat → fat_initialised img 2097152 k).
Proof.
  split; [by apply produced_overflow|]. no_image.
Qed.

(** C3, amended: for every size from 1 to 2097151 MB, written to a path
    that can be opened, in each of the two FAT copies of the produced file
    the first three little-endian 32-bit entries are 0x0FFFFFF8,
    0x0FFFFFFF and 0x0FFFFFFF, and every entry with index 3 ..
    total_clusters - 1 is zero; each of these entries lies inside the
    file with all its four bytes. *)
Theorem fat_reserved_entries (filename : string) (size_mb : Z) (w : world) :
  1 ≤ size_mb < 2097152 →
  can_open w filename = true →
  ∃ img,
    produced filename size_mb w = Some img
    ∧ ∀ k, (k < 2)%nat → fat_initialised img size_mb k.
Proof.
  intros Hs Hopen. exists (image_layout size_mb).
  split; [by apply produced_ok|].
  intros k Hk. unfold fat_initialised, fat_entry_is.
  pose proof (fat_bytes_eq size_mb) as Hfb.
  pose proof (total_clusters_eq size_mb) as Htc.
  assert (Hpresent : ∀ i, Z.of_nat i < total_clusters size_mb →
            length (slice (image_layout size_mb)
                      (fat_offset size_mb k + 4 * i) 4) = 4%nat).
  { intros i Hi. unfold image_layout.
    rewrite image_fat_copy by (apply length_bpb_layout || lia).
    unfold slice. rewrite length_take, length_drop, length_fat_layout by lia.
    lia. }
  assert (Hent : ∀ i, Z.of_nat i < total_clusters size_mb →
            fat_entry (image_layout size_mb) size_mb k i
            = le_decode (slice (fat_layout size_mb) (4 * i) 4)).
  { intros i Hi. unfold fat_entry, image_layout.
    by rewrite image_fat_copy by (apply length_bpb_layout || lia). }
  assert (Hhead : ∀ i, (i < 3)%nat →
            slice (fat_layout size_mb) (4 * i) 4 = slice fat_head (4 * i) 4).
  { intros i Hi. unfold fat_layout. apply slice_app_in.
    change (length fat_head) with 12%nat. lia. }
  rewrite !Hent, !Hhead by lia.
  do 3 (split; [split; [apply Hpresent; lia|by vm_compute]|]).
  intros i Hi3 Hi. split; [by apply Hpresent|].
  rewrite Hent by done. unfold fat_layout.
  replace (4 * i)%nat with (12 + (4 * i - 12))%nat by lia.
  rewrite (slice_app_skip fat_head _ 12) by reflexivity.
  rewrite slice_replicate by lia. reflexivity.
Qed.

Lemma fat_reserved_entries_witness :
  ∃ img,
    produced "disk.img" 1 empty_world = Some img
    ∧ ∀ k, (k < 2)%nat → fat_initialised img 1 k.
Proof. apply (fat_reserved_entries "disk.img" 1 empty_world); [lia|reflexivity]. Defined.

(** ** The boot sector against the layout table *)

Lemma is_zero_byte_true (b : option byte) :
  is_zero_byte b = true → b = Some x00.
Proof. destruct b as [[]|]; (discriminate || reflexivity). Qed.

Lemma uncovered_zero_check (tbl : list (nat * nat * field_value))
    (sector : bytes) (n : nat) :
  forallb (λ i, covered tbl i || is_zero_byte (sector !! i)) (seq 0 n) = true →
  ∀ i, (i < n)%nat → covered tbl i = false → sector !! i = Some x00.
Proof.
  intros Hall i Hi Hcov. rewrite forallb_forall in Hall.
  specialize (Hall i). rewrite Hcov in Hall.
  apply is_zero_byte_true, Hall, in_seq. lia.
Qed.

Lemma bpb_layout_total_sectors (size_mb : Z) :
  slice (bpb_layout size_mb) 32 4 = le_bytes 4 (total_sectors size_mb).
Proof.
  unfold bpb_layout.
  destruct (le_bytes_4_shape (total_sectors size_mb)) as (a & b & c & d & ->).
  destruct (le_bytes_4_shape (fat_size_sectors size_mb)) as (e & f & g & h & ->).
  by vm_compute.
Qed.

Lemma bpb_layout_fat_size (size_mb : Z) :
  slice (bpb_layout size_mb) 36 4 = le_bytes 4 (fat_size_sectors size_mb).
Proof.
  unfold bpb_layout.
  destruct (le_bytes_4_shape (total_sectors size_mb)) as (a & b & c & d & ->).
  destruct (le_bytes_4_shape (fat_size_sectors size_mb)) as (e & f & g & h & ->).
  by vm_compute.
Qed.

Lemma bpb_layout_ok (size_mb : Z) :
  0 ≤ size_mb < 2097152 → boot_sector_ok size_mb (bpb_layout size_mb).
Proof.
  intros Hs. split; [apply length_bpb_layout|].
  pose proof (bpb_layout_total_sectors size_mb) as Hts.
  pose proof (bpb_layout_fat_size size_mb) as Hfs.
  assert (Hdec_ts : le_decode (le_bytes 4 (total_sectors size_mb))
                    = total_sectors size_mb).
  { rewrite le_decode_le_bytes, total_sectors_eq.
    apply Z.mod_small. change (2 ^ (8 * Z.of_nat 4)) with 4294967296. lia. }
  assert (Hdec_fs : le_decode (le_bytes 4 (fat_size_sectors size_mb))
                    = fat_size_sectors size_mb).
  { rewrite le_decode_le_bytes, fat_size_sectors_eq.
    apply Z.mod_small. change (2 ^ (8 * Z.of_nat 4)) with 4294967296. lia. }
  revert Hts Hfs Hdec_ts Hdec_fs. unfold bpb_layout, section6_table.
  generalize (total_sectors size_mb) (fat_size_sectors size_mb).
  intros ts fs.
  destruct (le_bytes_4_shape ts) as (a & b & c & d & ->).
  destruct (le_bytes_4_shape fs) as (e & f & g & h & ->).
  intros Hts Hfs Hdec_ts Hdec_fs. split.
  - repeat (constructor;
      [split; [by vm_compute|];
       first [ by vm_compute
             | cbn [snd fst]; rewrite Hts; exact Hdec_ts
             | cbn [snd fst]; rewrite Hfs; exact Hdec_fs ] |]).
    constructor.
  - apply uncovered_zero_check. by vm_compute.
Qed.

Lemma le_decode_bound (l : bytes) :
  0 ≤ le_decode l < 2 ^ (8 * Z.of_nat (length l)).
Proof.
  induction l as [|b l IH]; [by vm_compute|].
  change (le_decode (b :: l)) with (Z_of_byte b + 256 * le_decode l).
  pose proof (Z_of_byte_range b) as Hb.
  replace (8 * Z.of_nat (length (b :: l)))
    with (8 + 8 * Z.of_nat (length l)) by (cbn [length]; lia).
  rewrite Z.pow_add_r by lia. change (2 ^ 8) with 256. lia.
Qed.

(** C2, as stated, fails at 2097152 MB: no file is produced; and no
    512-byte sector at all can hold total_sectors = 2^32 in the four bytes
    at offset 32. *)
Lemma boot_sector_fails_at_2097152 :
  ¬ (∃ img, produced "disk.img" 2097152 empty_world = Some img
            ∧ boot_sector_ok 2097152 (take 512 img))
  ∧ ∀ sector, ¬ boot_sector_ok 2097152 sector.
Proof.
  split; [no_image|].
  intros sector (_ & Hrows & _).
  assert (Hrow : section6_table 2097152 !! 13%nat
                 = Some (32%nat, 4%nat, FInt (total_sectors 2097152)))
    by reflexivity.
  apply (Forall_lookup_1 _ _ _ _ Hrows) in Hrow.
  destruct Hrow as [Hlen Hdec]. cbn [fst snd] in Hlen, Hdec.
  pose proof (le_decode_bound (slice sector 32 4)) as Hb.
  rewrite Hlen, Hdec in Hb. vm_compute in Hb. destruct Hb as [_ Hb].
  discriminate Hb.
Qed.

(** C2, amended: for every size from 1 to 2097151 MB, written to a path
    that can be opened, bytes 0..511 of the produced file are the boot
    sector of the layout table: every row's field is at its offset,
    little-endian, with its constant or geometry-derived value, and every
    byte outside the rows is zero.  Bytes 510-511 hold 0xAA55; for 32 MB
    the field at offset 32 decodes to 65536 and the one at offset 36 to
    fat_size_sectors, which is 512. *)
Theorem boot_sector_encoded (filename : string) (size_mb : Z) (w : world) :
  1 ≤ size_mb < 2097152 →
  can_open w filename = true →
  ∃ img,
    produced filename size_mb w = Some img
    ∧ boot_sector_ok size_mb (take 512 img)
    ∧ le_decode (slice img 510 2) = 0xAA55
    ∧ (size_mb = 32 →
       le_decode (slice img 32 4) = 65536
       ∧ le_decode (slice img 36 4) = fat_size_sectors 32
       ∧ fat_size_sectors 32 = 512).
Proof.
  intros Hs Hopen. exists (image_layout size_mb).
  split; [by apply produced_ok|].
  pose proof (length_bpb_layout size_mb) as Hlen.
  pose proof (bpb_layout_ok size_mb ltac:(lia)) as Hok.
  assert (Hsl : ∀ off len, (off + len ≤ 512)%nat →
            slice (image_layout size_mb) off len
            = slice (bpb_layout size_mb) off len).
  { intros off len Hfit. unfold image_layout, image_of.
    apply slice_app_in. lia. }
  unfold image_layout at 1. rewrite image_boot_sector by done.
  split; [exact Hok|].
  rewrite !Hsl by lia.
  destruct Hok as (_ & Hrows & _).
  split.
  - assert (Hrow : section6_table size_mb !! 25%nat
                   = Some (510%nat, 2%nat, FInt 0xAA55)) by reflexivity.
    apply (Forall_lookup_1 _ _ _ _ Hrows) in Hrow. apply Hrow.
  - intros ->.
    rewrite bpb_layout_total_sectors, bpb_layout_fat_size.
    clear. repeat split; vm_compute; reflexivity.
Qed.

Lemma boot_sector_encoded_witness :
  ∃ img,
    produced "disk.img" 32 empty_world = Some img
    ∧ boot_sector_ok 32 (take 512 img)
    ∧ le_decode (slice img 510 2) = 0xAA55
    ∧ (32 = 32 →
       le_decode (slice img 32 4) = 65536
       ∧ le_decode (slice img 36 4) = fat_size_sectors 32
       ∧ fat_size_sectors 32 = 512).
Proof. apply (boot_sector_encoded "disk.img" 32 empty_world); [lia|reflexivity]. Defined.

(** ** Determinism *)

Lemma create_fat32_image_unfold (filename : string) (size_mb : option Z)
    (w : world) :
  create_fat32_image filename size_mb w
  = match build_bpb (default 32 size_mb) with
    | Ok bpb =>
        with_open_wb filename (write_image bpb (default 32 size_mb)) w
    | Raise e => (w, Raise e)
    end.
Proof.
  unfold create_fat32_image, mbind, prog_bind, prog_lift.
  by destruct (build_bpb (default 32 size_mb)).
Qed.

(** C9. Two calls with the same filename and size, in any two states of
    the world in which the path can equally be opened, end the same way
    (returning, or raising the same exception) and issue the same writes;
    and either neither of them touches the world, or they leave the same
    bytes in the file.  Nothing of the prior state of the world, the
    previous contents of the file included, shows in the output. *)
Theorem create_fat32_image_deterministic
    (filename : string) (size_mb : option Z) (w1 w2 : world) :
  can_open w1 filename = can_open w2 filename →
  (create_fat32_image filename size_mb w1).2
    = (create_fat32_image filename size_mb w2).2
  ∧ emitted filename size_mb w1 = emitted filename size_mb w2
  ∧ ((create_fat32_image filename size_mb w1).1 = w1
     ∧ (create_fat32_image filename size_mb w2).1 = w2
     ∨ ∃ img,
         files (create_fat32_image filename size_mb w1).1 !! filename = Some img
         ∧ files (create_fat32_image filename size_mb w2).1 !! filename = Some img).
Proof.
  intros Hopen. unfold emitted.
  rewrite !create_fat32_image_unfold.
  destruct (build_bpb (default 32 size_mb)) as [bpb|e].
  2:{ cbn [fst snd]. rewrite !drop_ge by lia. auto. }
  unfold with_open_wb. rewrite <- Hopen.
  destruct (can_open w1 filename).
  2:{ cbn [fst snd]. rewrite !drop_ge by lia. auto. }
  destruct (write_image bpb (default 32 size_mb) (File [] 0 [])) as [f r].
  cbn [fst snd files write_log]. rewrite !drop_app_length.
  split; [done|]. split; [done|]. right. exists (f_data f).
  by rewrite !lookup_insert_eq.
Qed.

Lemma create_fat32_image_deterministic_witness :
  (create_fat32_image "disk.img" (Some 1) empty_world).2
  = (create_fat32_image "disk.img" (Some 1)
       (World {["disk.img" := [x01; x02; x03]]} (λ _, true) ["earlier"] [])).2.
Proof.
  apply (create_fat32_image_deterministic "disk.img" (Some 1) empty_world
           (World {["disk.img" := [x01; x02; x03]]} (λ _, true) ["earlier"] [])).
  reflexivity.
Defined.

(** ** The command line *)

Lemma main_usage (argv : list string) (w : world) :
  (length argv < 2)%nat →
  main argv w
  = (World (files w) (can_open w) (stdout w ++ [usage]) (write_log w),
     Raise (SystemExit 1)).
Proof.
  intros Hlen. unfold main. rewrite bool_decide_true by done. reflexivity.
Qed.

Lemma main_path (prog path : string) (rest : list string) (w : world) :
  main (prog :: path :: rest) w = create_fat32_image path None w.
Proof.
  unfold main. rewrite bool_decide_false by (cbn [length]; lia).
  reflexivity.
Qed.

Lemma create_fat32_image_length (filename : string) (size_mb : Z) (w : world) :
  1 ≤ size_mb < 2097152 →
  can_open w filename = true →
  ∃ img,
    (create_fat32_image filename (Some size_mb) w).2 = Ok ()
    ∧ files (create_fat32_image filename (Some size_mb) w).1 !! filename
      = Some img
    ∧ Z.of_nat (length img) = size_mb * 1024 * 1024.
Proof.
  intros Hs Hopen. rewrite create_fat32_image_ok by done.
  eexists. split; [done|]. cbn [fst files].
  split; [apply lookup_insert_eq|].
  apply length_image_of; [apply length_bpb_layout|lia].
Qed.

(** C7, as stated, fails: a size given on the command line is not read.
    With the arguments [disk.img 64] the program writes a 32 MB image, not
    a 64 MB one. *)
Lemma size_argument_ignored :
  ¬ (∃ img,
       files (main ["mkfat32.py"; "disk.img"; "64"] empty_world).1 !! "disk.img"
         = Some img
       ∧ Z.of_nat (length img) = 64 * 1024 * 1024).
Proof.
  intros (img & Himg & Hlen).
  rewrite main_path, create_fat32_image_default in Himg.
  destruct (create_fat32_image_length "disk.img" 32 empty_world)
    as (img' & _ & Himg' & Hlen'); [lia|reflexivity|].
  rewrite Himg in Himg'. injection Himg' as <-. lia.
Qed.

(** C7, amended: the command line takes the output path as its first
    argument and reads nothing else, further arguments are ignored: the
    script calls create_fat32_image with the path alone, so the size is
    the default 32 and the image has 32 MB.  The size in megabytes is an
    optional parameter of the function create_fat32_image only: given a
    size from 1 to 2097151 it produces an image of that size, and left
    out it stands for 32. *)
Theorem command_line_default_size
    (prog path : string) (rest : list string) (w : world) :
  can_open w path = true →
  main (prog :: path :: rest) w = create_fat32_image path (Some 32) w
  ∧ create_fat32_image path None w = create_fat32_image path (Some 32) w
  ∧ (∃ img,
       (main (prog :: path :: rest) w).2 = Ok ()
       ∧ files (main (prog :: path :: rest) w).1 !! path = Some img
       ∧ Z.of_nat (length img) = 32 * 1024 * 1024)
  ∧ ∀ size_mb, 1 ≤ size_mb < 2097152 →
      ∃ img, produced path size_mb w = Some img
             ∧ Z.of_nat (length img) = size_mb * 1024 * 1024.
Proof.
  intros Hopen. rewrite main_path, create_fat32_image_default.
  split; [reflexivity|]. split; [reflexivity|]. split.
  - apply create_fat32_image_length; [lia|exact Hopen].
  - intros size_mb Hs. eexists. split; [by apply produced_ok|].
    apply length_image_of; [apply length_bpb_layout|lia].
Qed.

Lemma command_line_default_size_witness :
  can_open empty_world "disk.img" = true
  ∧ main ["mkfat32.py"; "disk.img"; "64"] empty_world
    = create_fat32_image "disk.img" (Some 32) empty_world.
Proof.
  split; [reflexivity|].
  apply (command_line_default_size "mkfat32.py" "disk.img" ["64"] empty_world).
  reflexivity.
Defined.

(** C8. Without the output-path argument the program prints the usage
    message, exits with status 1 and leaves the file system as it was: no
    file is created or written.  With the argument, and the path one that
    can be opened, it exits with status 0. *)
Theorem exit_status_by_arguments (argv : list string) (w : world) :
  ((length argv < 2)%nat →
   (run argv w).2 = 1
   ∧ stdout (run argv w).1 = stdout w ++ [usage]
   ∧ files (run argv w).1 = files w
   ∧ write_log (run argv w).1 = write_log w)
  ∧ (∀ path, argv !! 1%nat = Some path → can_open w path = true →
     (run argv w).2 = 0
     ∧ stdout (run argv w).1 = stdout w
     ∧ is_Some (files (run argv w).1 !! path)).
Proof.
  unfold run. split.
  - intros Hlen. by rewrite main_usage.
  - intros path Hpath Hopen.
    destruct argv as [|prog [|path' rest]]; [done..|].
    injection Hpath as ->.
    rewrite main_path, create_fat32_image_default.
    generalize (create_fat32_image_ok path 32 w ltac:(lia) Hopen).
    generalize (image_layout 32) (image_writes 32). intros img ws ->.
    cbn [fst snd exit_status stdout files].
    split; [reflexivity|]. split; [reflexivity|].
    rewrite lookup_insert_eq. by eexists.
Qed.

Lemma exit_status_by_arguments_witness :
  (run ["mkfat32.py"] empty_world).2 = 1
  ∧ (run ["mkfat32.py"; "disk.img"] empty_world).2 = 0.
Proof.
  split.
  - apply (exit_status_by_arguments ["mkfat32.py"] empty_world).
    cbn [length]. lia.
  - apply (proj2 (exit_status_by_arguments ["mkfat32.py"; "disk.img"]
                    empty_world) "disk.img"); reflexivity.
Defined.


(** * Further properties of the code *)

(** ** Sizes the function refuses *)

Lemma pack_I_out_of_range (v : Z) :
  v < 0 ∨ 2 ^ 32 ≤ v → pack [uint] [Int v] = Raise StructError.
Proof.
  intros Hv. cbn [pack pack_one width]. unfold pack_uint.
  destruct (_ && _) eqn:E; [|done].
  apply andb_true_iff in E as [E1 E2].
  apply Z.leb_le in E1. apply Z.ltb_lt in E2.
  change (8 * Z.of_nat 4) with 32 in E2. lia.
Qed.

Lemma build_bpb_out_of_range (size_mb : Z) :
  size_mb < 0 ∨ 2097152 ≤ size_mb → build_bpb size_mb = Raise StructError.
Proof.
  intros Hs. unfold build_bpb, pack_into.
  rewrite (pack_I_out_of_range (total_sectors size_mb))
    by (rewrite total_sectors_eq; change (2 ^ 32) with 4294967296; lia).
  vm_compute. reflexivity.
Qed.

(** X1. A negative size, or one of 2097152 MB and more, is refused with
    struct.error before the file is opened: the world is left exactly as
    it was, whether or not the path could have been opened. *)
Theorem out_of_range_size_rejected
    (filename : string) (size_mb : Z) (w : world) :
  size_mb < 0 ∨ 2097152 ≤ size_mb →
  create_fat32_image filename (Some size_mb) w = (w, Raise StructError).
Proof.
  intros Hs. rewrite create_fat32_image_unfold.
  change (default 32 (Some size_mb)) with size_mb.
  by rewrite build_bpb_out_of_range.
Qed.

Lemma out_of_range_size_rejected_witness :
  create_fat32_image "disk.img" (Some (-3)) locked_world
  = (locked_world, Raise StructError).
Proof.
  apply (out_of_range_size_rejected "disk.img" (-3) locked_world). lia.
Defined.

(** ** Size zero *)

Lemma build_fat_zero : build_fat 0 = Raise StructError.
Proof. reflexivity. Qed.

Lemma write_image_zero (bpb : bytes) :
  length bpb = 512%nat →
  write_image bpb 0 (File [] 0 [])
  = (File (bpb ++ reserved_fill) 16384 [(0, bpb); (512, reserved_fill)],
     Raise StructError).
Proof.
  intros Hb. unfold write_image.
  change (File [] 0 []) with (File [] (Z.of_nat (length (@nil byte))) []).
  erewrite io_bind_run by apply f_write_append. cbv beta.
  erewrite io_bind_run by apply f_write_append. cbv beta.
  rewrite build_fat_zero. unfold mbind at 1, io_bind, io_lift.
  rewrite !bytes_mul_single. fold reserved_fill.
  rewrite !app_nil_l, !length_app, Hb, length_reserved_fill.
  reflexivity.
Qed.

(** X2. With size zero and a path that can be opened, the call creates
    the file, writes the boot sector and the 31 zero reserved sectors,
    and then raises struct.error on the empty FAT buffer: a file of
    exactly 16384 bytes is left behind in place of whatever was there. *)
Theorem size_zero_leaves_partial_file (filename : string) (w : world) :
  can_open w filename = true →
  ∃ w' bpb,
    create_fat32_image filename (Some 0) w = (w', Raise StructError)
    ∧ build_bpb 0 = Ok bpb
    ∧ files w' !! filename = Some (bpb ++ replicate (Z.to_nat 15872) x00)
    ∧ length (bpb ++ replicate (Z.to_nat 15872) x00) = Z.to_nat 16384.
Proof.
  intros Hopen. rewrite create_fat32_image_unfold.
  change (default 32 (Some 0)) with 0.
  rewrite build_bpb_ok by lia.
  unfold with_open_wb. rewrite Hopen.
  rewrite write_image_zero by apply length_bpb_layout.
  eexists _, _. split; [reflexivity|]. split; [reflexivity|].
  cbn [files f_data]. split; [apply lookup_insert_eq|].
  rewrite length_app, length_bpb_layout, length_replicate. lia.
Qed.

Lemma size_zero_leaves_partial_file_witness :
  ∃ w' bpb,
    create_fat32_image "disk.img" (Some 0) empty_world
      = (w', Raise StructError)
    ∧ build_bpb 0 = Ok bpb
    ∧ files w' !! "disk.img" = Some (bpb ++ replicate (Z.to_nat 15872) x00)
    ∧ length (bpb ++ replicate (Z.to_nat 15872) x00) = Z.to_nat 16384.
Proof.
  apply (size_zero_leaves_partial_file "disk.img" empty_world). reflexivity.
Defined.

(** ** A path that cannot be opened *)

Lemma create_fat32_image_locked (filename : string) (size_mb : Z) (w : world) :
  0 ≤ size_mb < 2097152 →
  can_open w filename = false →
  create_fat32_image filename (Some size_mb) w
  = (w, Raise (open_error filename)).
Proof.
  intros Hs Hopen. rewrite create_fat32_image_unfold.
  change (default 32 (Some size_mb)) with size_mb.
  rewrite build_bpb_ok by lia.
  unfold with_open_wb. by rewrite Hopen.
Qed.

(** X3. For a size from 0 to 2097151, a path that cannot be opened makes
    the call raise what open raises, ValueError when the path holds a NUL
    character and OSError otherwise, and leave the world exactly as it
    was. *)
Theorem unopenable_path_raises
    (filename : string) (size_mb : Z) (w : world) :
  0 ≤ size_mb < 2097152 →
  can_open w filename = false →
  create_fat32_image filename (Some size_mb) w
  = (w, Raise (if has_nul filename then ValueError else OSError)).
Proof. apply create_fat32_image_locked. Qed.

Example nul_path_raises_valueerror :
  create_fat32_image (String Ascii.zero "disk.img") (Some 32) locked_world
  = (locked_world, Raise ValueError).
Proof. apply create_fat32_image_locked; [lia|reflexivity]. Qed.

Lemma unopenable_path_raises_witness :
  create_fat32_image "disk.img" (Some 32) locked_world
  = (locked_world, Raise OSError).
Proof.
  apply (unopenable_path_raises "disk.img" 32 locked_world);
    [lia|reflexivity].
Defined.

(** ** What a call leaves alone *)

(** X4. Whatever the arguments and however the call ends, it prints
    nothing and passes no path to open but the one it was given, and that
    one at most once: no companion file is opened or written. *)
Theorem opens_only_named_path
    (filename : string) (size_mb : option Z) (w : world) :
  stdout (create_fat32_image filename size_mb w).1 = stdout w
  ∧ (write_log (create_fat32_image filename size_mb w).1 = write_log w
     ∨ ∃ ws, write_log (create_fat32_image filename size_mb w).1
             = write_log w ++ [(filename, ws)]).
Proof.
  rewrite create_fat32_image_unfold.
  destruct (build_bpb (default 32 size_mb)) as [bpb|e];
    [|split; [reflexivity|left; reflexivity]].
  unfold with_open_wb.
  destruct (can_open w filename); [|split; [reflexivity|left; reflexivity]].
  destruct (write_image bpb (default 32 size_mb) (File [] 0 [])) as [f r].
  cbn [fst stdout write_log]. split; [reflexivity|].
  right. exists (f_writes f). reflexivity.
Qed.


(** ** Everything else in the image is zero *)

Lemma image_of_zero_runs (bpb : bytes) (size_mb : Z) :
  image_of bpb size_mb
  = bpb ++ replicate (Z.to_nat 15872) x00
    ++ fat_head ++ replicate (fat_bytes size_mb - 12) x00
    ++ fat_head
    ++ replicate (fat_bytes size_mb - 12
                  + (512 + (Z.to_nat (seek_target size_mb)
                            - written_bytes size_mb + 1))) x00.
Proof.
  unfold image_of, fat_layout. rewrite <- !app_assoc.
  do 5 f_equal. by rewrite !replicate_add.
Qed.

Lemma lookup_zeros_app (n i : nat) (rest : bytes) :
  (i < n)%nat → (replicate n x00 ++ rest) !! i = Some x00.
Proof.
  intros Hi. rewrite lookup_app_l by (rewrite length_replicate; lia).
  by apply lookup_replicate_2.
Qed.

(** X6. In an image of 1 to 2097151 MB every byte after the boot sector
    is zero, except the first twelve bytes of each FAT copy: the rest of
    the reserved sectors, the free FAT entries, the root directory and the
    whole data area up to the last byte of the file. *)
Theorem image_zero_outside_headers
    (filename : string) (size_mb : Z) (w : world) :
  1 ≤ size_mb < 2097152 →
  can_open w filename = true →
  ∃ img,
    produced filename size_mb w = Some img
    ∧ ∀ i, (512 ≤ i < length img)%nat →
        ¬ (fat_offset size_mb 0 ≤ i < fat_offset size_mb 0 + 12)%nat →
        ¬ (fat_offset size_mb 1 ≤ i < fat_offset size_mb 1 + 12)%nat →
        img !! i = Some x00.
Proof.
  intros Hs Hopen. exists (image_layout size_mb).
  split; [by apply produced_ok|].
  pose proof (length_image_of (bpb_layout size_mb) size_mb
                (length_bpb_layout size_mb) ltac:(lia)) as Hlen.
  pose proof (length_bpb_layout size_mb) as Hb.
  pose proof (fat_bytes_eq size_mb) as Hfb.
  pose proof (written_bytes_eq size_mb ltac:(lia)) as Hw.
  pose proof (seek_target_eq size_mb) as Ht.
  unfold image_layout in *. revert Hlen.
  rewrite image_of_zero_runs. unfold fat_offset, reserved_sectors, sector_size.
  generalize (bpb_layout size_mb) Hb. clear Hb. intros bpb Hb Hlen i Hi H0 H1.
  assert (Hh : length fat_head = 12%nat) by reflexivity.
  rewrite lookup_app_r by lia. rewrite Hb.
  destruct (decide (i - 512 < Z.to_nat 15872)%nat) as [|Hge1];
    [by apply lookup_zeros_app|].
  rewrite lookup_app_r by (rewrite length_replicate; lia).
  rewrite length_replicate.
  rewrite lookup_app_r by lia. rewrite Hh.
  destruct (decide (i - 512 - Z.to_nat 15872 - 12 < fat_bytes size_mb - 12)%nat)
    as [|Hge2]; [by apply lookup_zeros_app|].
  rewrite lookup_app_r by (rewrite length_replicate; lia).
  rewrite length_replicate.
  rewrite lookup_app_r by lia. rewrite Hh.
  apply lookup_replicate_2.
  rewrite !length_app, !length_replicate, Hb, !Hh in Hi. lia.
Qed.

Lemma image_zero_outside_headers_witness :
  ∃ img,
    produced "disk.img" 1 empty_world = Some img
    ∧ ∀ i, (512 ≤ i < length img)%nat →
        ¬ (fat_offset 1 0 ≤ i < fat_offset 1 0 + 12)%nat →
        ¬ (fat_offset 1 1 ≤ i < fat_offset 1 1 + 12)%nat →
        img !! i = Some x00.
Proof.
  apply (image_zero_outside_headers "disk.img" 1 empty_world);
    [lia|reflexivity].
Defined.

(** ** The reserved sectors the boot sector points to *)

Lemma image_low_slice (size_mb : Z) (off len : nat) :
  (off + len ≤ 512)%nat →
  slice (image_layout size_mb) off len = slice (bpb_layout size_mb) off len.
Proof.
  intros Hfit. unfold image_layout, image_of.
  apply slice_app_in. rewrite length_bpb_layout. lia.
Qed.

Lemma image_header_row (size_mb : Z) (k off len : nat) (v : Z) :
  0 ≤ size_mb < 2097152 →
  (off + len ≤ 512)%nat →
  section6_table size_mb !! k = Some (off, len, FInt v) →
  header (image_layout size_mb) off len = v.
Proof.
  intros Hs Hfit Hrow. unfold header. rewrite image_low_slice by done.
  destruct (bpb_layout_ok size_mb Hs) as (_ & Hrows & _).
  apply (Forall_lookup_1 _ _ _ _ Hrows) in Hrow. apply Hrow.
Qed.

(** X7. The boot sector names sector 1 as the FS-info sector and sector 6
    as the backup boot sector, but in an image of 1 to 2097151 MB all of
    the reserved sectors 1 to 31 are zero: no FS-info structure is
    written, and sector 6 is not a copy of the boot sector. *)
Theorem reserved_sectors_blank (filename : string) (size_mb : Z) (w : world) :
  1 ≤ size_mb < 2097152 →
  can_open w filename = true →
  ∃ img,
    produced filename size_mb w = Some img
    ∧ header img 48 2 = 1
    ∧ header img 50 2 = 6
    ∧ (∀ n, (1 ≤ n < 32)%nat → sector img n = replicate 512 x00)
    ∧ sector img 6 ≠ sector img 0.
Proof.
  intros Hs Hopen. exists (image_layout size_mb).
  split; [by apply produced_ok|].
  split; [by apply (image_header_row size_mb 18); [lia|lia|]|].
  split; [by apply (image_header_row size_mb 19); [lia|lia|]|].
  assert (Hblank : ∀ n, (1 ≤ n < 32)%nat →
            sector (image_layout size_mb) n = replicate 512 x00).
  { intros n Hn. unfold sector, image_layout, image_of.
    replace (n * 512)%nat with (512 + (n - 1) * 512)%nat by lia.
    rewrite (slice_app_skip _ _ 512) by (by rewrite length_bpb_layout).
    rewrite slice_app_in by (rewrite length_reserved_fill; lia).
    unfold reserved_fill, sector_size, reserved_sectors.
    apply slice_replicate. lia. }
  split; [exact Hblank|].
  rewrite Hblank by lia. intros Heq.
  assert (Hsig : header (image_layout size_mb) 510 2 = 0xAA55)
    by (by apply (image_header_row size_mb 25); [lia|lia|]).
  unfold header in Hsig.
  replace (slice (image_layout size_mb) 510 2)
    with (slice (sector (image_layout size_mb) 0) 510 2) in Hsig.
  - rewrite <- Heq in Hsig. by vm_compute in Hsig.
  - unfold sector, slice. change (0 * 512)%nat with 0%nat.
    rewrite drop_0, !take_drop_commute, take_take. reflexivity.
Qed.

Lemma reserved_sectors_blank_witness :
  ∃ img,
    produced "disk.img" 1 empty_world = Some img
    ∧ header img 48 2 = 1
    ∧ header img 50 2 = 6
    ∧ (∀ n, (1 ≤ n < 32)%nat → sector img n = replicate 512 x00)
    ∧ sector img 6 ≠ sector img 0.
Proof.
  apply (reserved_sectors_blank "disk.img" 1 empty_world); [lia|reflexivity].
Defined.

(** ** The header describes the file it is in *)

(** X8. In an image of 1 to 2097151 MB the fields of the boot sector,
    read back from the file, describe the file itself: bytes per sector
    times total sectors is the file length, the first FAT copy starts
    after the reserved sectors, the second one FAT size later, the root
    directory cluster after number-of-FATs copies, and that cluster lies
    inside the file. *)
Theorem header_describes_image (filename : string) (size_mb : Z) (w : world) :
  1 ≤ size_mb < 2097152 →
  can_open w filename = true →
  ∃ img,
    produced filename size_mb w = Some img
    ∧ header img 11 2 * header img 32 4 = Z.of_nat (length img)
    ∧ Z.of_nat (fat_offset size_mb 0) = header img 14 2 * header img 11 2
    ∧ Z.of_nat (fat_offset size_mb 1)
      = (header img 14 2 + header img 36 4) * header img 11 2
    ∧ Z.of_nat (root_offset size_mb)
      = (header img 14 2 + header img 16 1 * header img 36 4)
        * header img 11 2
    ∧ Z.of_nat (root_offset size_mb) + header img 13 1 * header img 11 2
      ≤ Z.of_nat (length img).
Proof.
  intros Hs Hopen. exists (image_layout size_mb).
  split; [by apply produced_ok|].
  rewrite (image_header_row size_mb 2 11 2 512) by (lia || done).
  rewrite (image_header_row size_mb 3 13 1 1) by (lia || done).
  rewrite (image_header_row size_mb 4 14 2 32) by (lia || done).
  rewrite (image_header_row size_mb 5 16 1 2) by (lia || done).
  rewrite (image_header_row size_mb 13 32 4 (total_sectors size_mb))
    by (lia || done).
  rewrite (image_header_row size_mb 14 36 4 (fat_size_sectors size_mb))
    by (lia || done).
  pose proof (length_image_of (bpb_layout size_mb) size_mb
                (length_bpb_layout size_mb) ltac:(lia)) as Hlen.
  pose proof (fat_bytes_eq size_mb) as Hfb.
  fold (image_layout size_mb) in Hlen.
  rewrite total_sectors_eq, fat_size_sectors_eq, Hlen.
  unfold fat_offset, root_offset, reserved_sectors, sector_size, num_fats.
  rewrite fat_size_sectors_eq, Hfb. lia.
Qed.

Lemma header_describes_image_witness :
  ∃ img,
    produced "disk.img" 1 empty_world = Some img
    ∧ header img 11 2 * header img 32 4 = Z.of_nat (length img)
    ∧ Z.of_nat (fat_offset 1 0) = header img 14 2 * header img 11 2
    ∧ Z.of_nat (fat_offset 1 1)
      = (header img 14 2 + header img 36 4) * header img 11 2
    ∧ Z.of_nat (root_offset 1)
      = (header img 14 2 + header img 16 1 * header img 36 4)
        * header img 11 2
    ∧ Z.of_nat (root_offset 1) + header img 13 1 * header img 11 2
      ≤ Z.of_nat (length img).
Proof.
  apply (header_describes_image "disk.img" 1 empty_world); [lia|reflexivity].
Defined.

(** ** The exit status of the script *)

Lemma main_outcome (prog path : string) (rest : list string) (w : world) :
  (can_open w path = true →
   ∃ w', main (prog :: path :: rest) w = (w', Ok ()) ∧ stdout w' = stdout w)
  ∧ (can_open w path = false →
     main (prog :: path :: rest) w = (w, Raise (open_error path))).
Proof.
  rewrite main_path, create_fat32_image_default. split; intros Hopen.
  - rewrite create_fat32_image_ok by (lia || done). by eexists.
  - apply create_fat32_image_locked; [lia|done].
Qed.

(** X9. The script exits with status 0 or 1, and with 0 exactly when a
    second argv entry is there and names a path that can be opened.  The
    guard on the number of arguments makes the access to argv[1] safe:
    IndexError is never raised. *)
Theorem exit_status_characterised (argv : list string) (w : world) :
  ((run argv w).2 = 0 ∨ (run argv w).2 = 1)
  ∧ ((run argv w).2 = 0
     ↔ ∃ path, argv !! 1%nat = Some path ∧ can_open w path = true)
  ∧ (main argv w).2 ≠ Raise IndexError.
Proof.
  unfold run.
  destruct argv as [|prog [|path rest]].
  1,2: rewrite main_usage by (cbn [length]; lia); cbn [fst snd exit_status];
       split; [right; reflexivity|]; split; [|discriminate];
       split; [discriminate|intros (? & [=] & _)].
  destruct (main_outcome prog path rest w) as [Hyes Hno].
  destruct (can_open w path) eqn:Hopen.
  - destruct (Hyes eq_refl) as (w' & Hmain & _). clear Hyes Hno.
    rewrite Hmain. cbn [fst snd exit_status].
    split; [left; reflexivity|]. split; [|discriminate].
    split; [|reflexivity].
    intros _. exists path. split; [reflexivity|exact Hopen].
  - rewrite (Hno eq_refl). clear Hyes Hno. unfold open_error.
    destruct (has_nul path); cbn [fst snd exit_status].
    all: split; [right; reflexivity|]; split; [|discriminate].
    all: split; [discriminate|].
    all: intros (path' & [= <-] & Hopen'); congruence.
Qed.

(** X10. When the path given on the command line cannot be opened, the
    script ends on the uncaught OSError with status 1; it prints no usage
    message and leaves the world exactly as it was. *)
Theorem unopenable_path_exit (argv : list string) (path : string) (w : world) :
  argv !! 1%nat = Some path →
  can_open w path = false →
  run argv w = (w, 1).
Proof.
  intros Hpath Hopen. unfold run.
  destruct argv as [|prog [|path' rest]]; [done..|].
  injection Hpath as ->.
  destruct (main_outcome prog path rest w) as [_ Hno].
  rewrite (Hno Hopen). unfold open_error.
  destruct (has_nul path); reflexivity.
Qed.

Lemma unopenable_path_exit_witness :
  run ["mkfat32.py"; "disk.img"] locked_world = (locked_world, 1).
Proof.
  apply (unopenable_path_exit ["mkfat32.py"; "disk.img"] "disk.img"
           locked_world); reflexivity.
Defined.

(** ** The FAT against the data area *)

(** X11. For every size that is not negative, no division of the
    geometry rounds: the sectors fill the requested size exactly and each
    FAT copy holds exactly total_clusters entries of four bytes.  The
    clusters of the data area, which are numbered from 2, all have an
    entry, so the FAT is never too short for the volume. *)
Theorem fat_covers_data_area (size_mb : Z) :
  0 ≤ size_mb →
  total_sectors size_mb * sector_size = size_mb * 1024 * 1024
  ∧ fat_size_sectors size_mb * sector_size = total_clusters size_mb * 4
  ∧ remaining_sectors size_mb / sectors_per_cluster + 2
    ≤ total_clusters size_mb.
Proof.
  intros Hs. unfold remaining_sectors, used_sectors.
  rewrite total_sectors_eq, total_clusters_eq, fat_size_sectors_eq.
  unfold sector_size, sectors_per_cluster, reserved_sectors, num_fats.
  rewrite Z.div_1_r. lia.
Qed.

Lemma fat_covers_data_area_witness :
  0 ≤ 32
  ∧ remaining_sectors 32 / sectors_per_cluster + 2 ≤ total_clusters 32.
Proof. split; [lia|]. apply (fat_covers_data_area 32). lia. Defined.

(** ** The order of the writes *)

(** X12. For a size from 1 to 2097151 MB the function issues exactly six
    writes on the file, each starting at or after the end of the one
    before, so no byte is written twice.  They hand over
    16897 + 16384 * size_mb bytes in all, never more than the size of the
    image: the rest is the hole left by the seek. *)
Theorem writes_front_to_back (filename : string) (size_mb : Z) (w : world) :
  1 ≤ size_mb < 2097152 →
  can_open w filename = true →
  ∃ w' ws,
    create_fat32_image filename (Some size_mb) w = (w', Ok ())
    ∧ last (write_log w') = Some (filename, ws)
    ∧ length ws = 6%nat
    ∧ front_to_back 0 ws
    ∧ bytes_written ws = 16897 + 16384 * size_mb
    ∧ bytes_written ws ≤ size_mb * 1024 * 1024.
Proof.
  intros Hs Hopen. eexists _, _.
  split; [by apply create_fat32_image_ok|]. cbn [write_log].
  split; [apply last_snoc|].
  pose proof (length_bpb_layout size_mb) as Hb.
  pose proof (length_fat_layout size_mb ltac:(lia)) as Hf.
  pose proof (fat_bytes_eq size_mb) as Hfb.
  pose proof length_reserved_fill as Hr.
  pose proof length_root_dir as Hrd.
  pose proof (seek_target_eq size_mb) as Ht.
  unfold image_writes, writes_of.
  split; [reflexivity|].
  cbn [front_to_back bytes_written foldr fst snd length].
  rewrite Hb, Hf, Hr, Hrd, Hfb, Ht. lia.
Qed.

Lemma writes_front_to_back_witness :
  ∃ w' ws,
    create_fat32_image "disk.img" (Some 1) empty_world = (w', Ok ())
    ∧ last (write_log w') = Some ("disk.img", ws)
    ∧ length ws = 6%nat
    ∧ front_to_back 0 ws
    ∧ bytes_written ws = 16897 + 16384 * 1
    ∧ bytes_written ws ≤ 1 * 1024 * 1024.
Proof.
  apply (writes_front_to_back "disk.img" 1 empty_world); [lia|reflexivity].
Defined.

(** ** What depends on the arguments *)

Lemma build_bpb_inv (size_mb : Z) (bpb : bytes) :
  build_bpb size_mb = Ok bpb →
  0 ≤ size_mb < 2097152 ∧ bpb = bpb_layout size_mb.
Proof.
  intros Hbuild.
  destruct (decide (0 ≤ size_mb < 2097152)) as [Hs|Hs].
  - split; [exact Hs|]. rewrite build_bpb_ok in Hbuild by exact Hs.
    congruence.
  - rewrite build_bpb_out_of_range in Hbuild by lia. discriminate.
Qed.

Lemma bpb_layout_lookup_fixed (size_mb : Z) (i : nat) :
  (i < 32 ∨ 40 ≤ i)%nat → bpb_layout size_mb !! i = bpb_fixed !! i.
Proof.
  intros Hi. unfold bpb_layout.
  assert (Hlen : length (take 32 bpb_fixed) = 32%nat) by reflexivity.
  destruct Hi as [Hi|Hi].
  - rewrite lookup_app_l by lia. apply lookup_take_lt. exact Hi.
  - rewrite lookup_app_r by lia.
    rewrite lookup_app_r by (rewrite length_le_bytes; lia).
    rewrite lookup_app_r by (rewrite !length_le_bytes; lia).
    rewrite Hlen, !length_le_bytes, lookup_drop. f_equal. lia.
Qed.

(** X13. The size reaches the boot sector only through bytes 32 to 39,
    the two computed fields: the boot sectors built for any two sizes
    agree on every other byte. *)
Theorem boot_sector_size_independent
    (size1 size2 : Z) (bpb1 bpb2 : bytes) (i : nat) :
  build_bpb size1 = Ok bpb1 →
  build_bpb size2 = Ok bpb2 →
  (i < 32 ∨ 40 ≤ i)%nat →
  bpb1 !! i = bpb2 !! i.
Proof.
  intros [_ ->]%build_bpb_inv [_ ->]%build_bpb_inv Hi.
  rewrite !bpb_layout_lookup_fixed by exact Hi. reflexivity.
Qed.

Lemma boot_sector_size_independent_witness :
  bpb_layout 1 !! 510%nat = bpb_layout 64 !! 510%nat.
Proof.
  apply (boot_sector_size_independent 1 64 (bpb_layout 1) (bpb_layout 64) 510);
    [apply build_bpb_ok; lia | apply build_bpb_ok; lia | lia].
Defined.

(** X14. The bytes of the image do not depend on the name of the file
    nor on the world it is written in: two calls with the same size, on
    any two paths that can be opened, produce the same image, or both
    produce none. *)
Theorem image_independent_of_filename
    (file1 file2 : string) (size_mb : Z) (w1 w2 : world) :
  can_open w1 file1 = true →
  can_open w2 file2 = true →
  produced file1 size_mb w1 = produced file2 size_mb w2.
Proof.
  intros Hopen1 Hopen2. unfold produced.
  rewrite !create_fat32_image_unfold.
  destruct (build_bpb (default 32 (Some size_mb))) as [bpb|e]; [|reflexivity].
  unfold with_open_wb. rewrite Hopen1, Hopen2.
  destruct (write_image bpb (default 32 (Some size_mb)) (File [] 0 []))
    as [f [[]|e]]; [|reflexivity].
  cbn [files]. rewrite !lookup_insert_eq. reflexivity.
Qed.

Lemma image_independent_of_filename_witness :
  produced "a.img" 1 empty_world
  = produced "b.img" 1 (World {["b.img" := [x01]]} (λ _, true) [] []).
Proof.
  apply (image_independent_of_filename "a.img" "b.img" 1 empty_world
           (World {["b.img" := [x01]]} (λ _, true) [] [])); reflexivity.
Defined.

(** ** The sizes the function accepts *)

(** X15. On a path that can be opened, the call returns normally exactly
    for the sizes from 1 to 2097151 MB; for every other integer it
    raises. *)
Theorem returns_iff_size_in_range (filename : string) (size_mb : Z) (w : world) :
  can_open w filename = true →
  (create_fat32_image filename (Some size_mb) w).2 = Ok ()
  ↔ 1 ≤ size_mb < 2097152.
Proof.
  intros Hopen. split.
  - intros Hok.
    destruct (decide (1 ≤ size_mb < 2097152)) as [Hs|Hs]; [exact Hs|].
    exfalso. revert Hok. rewrite create_fat32_image_unfold.
    change (default 32 (Some size_mb)) with size_mb.
    destruct (decide (size_mb = 0)) as [->|Hnz].
    + rewrite build_bpb_ok by lia. unfold with_open_wb. rewrite Hopen.
      rewrite write_image_zero by apply length_bpb_layout.
      cbn [snd]. discriminate.
    + rewrite build_bpb_out_of_range by lia. cbn [snd]. discriminate.
  - intros Hs. rewrite create_fat32_image_ok by assumption. reflexivity.
Qed.

Lemma returns_iff_size_in_range_witness :
  (create_fat32_image "disk.img" (Some 0) empty_world).2 = Ok ()
  ↔ 1 ≤ 0 < 2097152.
Proof.
  apply (returns_iff_size_in_range "disk.img" 0 empty_world). reflexivity.
Defined.

(** ** The FAT against the header *)

Lemma image_fat_head_entry (size_mb : Z) (k i : nat) :
  1 ≤ size_mb → (k < 2)%nat → (i < 3)%nat →
  fat_entry (image_layout size_mb) size_mb k i
  = le_decode (slice fat_head (4 * i) 4).
Proof.
  intros Hs Hk Hi. unfold fat_entry, image_layout.
  pose proof (fat_bytes_eq size_mb) as Hfb.
  rewrite image_fat_copy by (apply length_bpb_layout || lia).
  unfold fat_layout. f_equal. apply slice_app_in.
  change (length fat_head) with 12%nat. lia.
Qed.

(** X16. In an image of 1 to 2097151 MB the FAT agrees with the boot
    sector: the low byte of entry 0 of each copy is the media descriptor
    of the header with all 20 bits above it set, and the entry of the
    root cluster named by the header is an end-of-chain mark, so the root
    directory is the single cluster at the start of the data area. *)
Theorem fat_agrees_with_header (filename : string) (size_mb : Z) (w : world) :
  1 ≤ size_mb < 2097152 →
  can_open w filename = true →
  ∃ img,
    produced filename size_mb w = Some img
    ∧ header img 44 4 = 2
    ∧ ∀ k, (k < 2)%nat →
        fat_entry img size_mb k 0 = 0x0FFFFF00 + header img 21 1
        ∧ 0x0FFFFFF8 ≤ fat_entry img size_mb k (Z.to_nat (header img 44 4)).
Proof.
  intros Hs Hopen. exists (image_layout size_mb).
  split; [apply produced_ok; assumption|].
  rewrite (image_header_row size_mb 17 44 4 2) by (lia || reflexivity).
  rewrite (image_header_row size_mb 8 21 1 0xF8) by (lia || reflexivity).
  split; [reflexivity|]. intros k Hk.
  change (Z.to_nat 2) with 2%nat.
  rewrite !image_fat_head_entry by lia.
  split; vm_compute; [reflexivity|discriminate].
Qed.

Lemma fat_agrees_with_header_witness :
  ∃ img,
    produced "disk.img" 1 empty_world = Some img
    ∧ header img 44 4 = 2
    ∧ ∀ k, (k < 2)%nat →
        fat_entry img 1 k 0 = 0x0FFFFF00 + header img 21 1
        ∧ 0x0FFFFFF8 ≤ fat_entry img 1 k (Z.to_nat (header img 44 4)).
Proof.
  apply (fat_agrees_with_header "disk.img" 1 empty_world); [lia|reflexivity].
Defined.
